(** * citra_qt/bootmanager.cpp: emulation thread and render window

    A shallow embedding of [EmuThread::run] and of the input and GL-context
    entry points of [GRenderWindow], with the properties of the design
    document stated over it.

    Conventions.
    - A C++ [int], [Uint8] or [Sint16] is a [Z]; no arithmetic is done on
      them here, only comparisons, so no wrap-around is involved.
    - A member function that only calls into a collaborator ([KeyMap],
      the GL widget, [Core::System]) is embedded as the list of calls it
      makes, in order.
    - Preprocessor conditions are fields of [BuildConfig]. *)

From Stdlib Require Import ZArith List Bool Lia.
From stdpp Require Import gmap list fin_maps.
Import ListNotations.
Local Open Scope Z_scope.

(** ** SDL and Qt constants used by the source *)

(** [SDL_GameControllerButton] (SDL_gamecontroller.h). *)
Definition SDL_CONTROLLER_BUTTON_A : Z := 0.
Definition SDL_CONTROLLER_BUTTON_B : Z := 1.
Definition SDL_CONTROLLER_BUTTON_X : Z := 2.
Definition SDL_CONTROLLER_BUTTON_Y : Z := 3.
Definition SDL_CONTROLLER_BUTTON_BACK : Z := 4.
Definition SDL_CONTROLLER_BUTTON_GUIDE : Z := 5.
Definition SDL_CONTROLLER_BUTTON_START : Z := 6.
Definition SDL_CONTROLLER_BUTTON_DPAD_UP : Z := 11.
Definition SDL_CONTROLLER_BUTTON_DPAD_DOWN : Z := 12.
Definition SDL_CONTROLLER_BUTTON_DPAD_LEFT : Z := 13.
Definition SDL_CONTROLLER_BUTTON_DPAD_RIGHT : Z := 14.

(** [SDL_GameControllerAxis]. *)
Definition SDL_CONTROLLER_AXIS_LEFTX : Z := 0.
Definition SDL_CONTROLLER_AXIS_LEFTY : Z := 1.

(** Button states (SDL_events.h). *)
Definition SDL_RELEASED : Z := 0.
Definition SDL_PRESSED : Z := 1.

(** The literal key codes of [gamepadAxisEvent]; they are Qt's
    [Key_Left], [Key_Up], [Key_Right] and [Key_Down]. *)
Definition Key_Left : Z := 16777234.
Definition Key_Up : Z := 16777235.
Definition Key_Right : Z := 16777236.
Definition Key_Down : Z := 16777237.

(** ** Build configuration *)

Record BuildConfig := {
  (** [QT_VERSION > QT_VERSION_CHECK(5, 0, 0)] *)
  qt_version_gt_5_0_0 : bool;
  (** [defined(QT_NO_DEBUG)] *)
  qt_no_debug : bool
}.

(** ** Threads and the GL widget *)

(** [qApp->thread()] is the presentation thread; an [EmuThread*] is
    identified by a number. *)
Inductive QThread :=
| qApp_thread
| emu_qthread (this : nat).

Definition QThread_eqb (a b : QThread) : bool :=
  match a, b with
  | qApp_thread, qApp_thread => true
  | emu_qthread x, emu_qthread y => Nat.eqb x y
  | _, _ => false
  end.

(** Calls on [child] (the [QGLWidget]) and its context, each with the
    thread that makes the call. *)
Inductive GLCall :=
| makeCurrent (caller : QThread)
| doneCurrent (caller : QThread)
| moveToThread (caller dest : QThread)
| swapBuffers (caller : QThread).

(** ** KeyMap *)

(** [KeyMap::HostDeviceKey]: [{key_code, device_id}]. *)
Abbreviation HostDeviceKey := (Z * Z)%type.

(** Calls that forward an input to the machine. *)
Inductive KeyMapInput :=
| PressKey (key : HostDeviceKey)
| ReleaseKey (key : HostDeviceKey).

Module KeyMap.
Section Table.
(** [KeyMap::KeyTarget] is declared in core/frontend/key_map.h. *)
Context {KeyTarget : Type}.

(** Calls that edit the table. *)
Inductive Edit :=
| ClearKeyMapping (device_id : Z)
| SetKeyMapping (key : HostDeviceKey) (target : KeyTarget).

(** Modelled from the spec: [KeyMap::ClearKeyMapping] is defined in
    core/frontend/key_map.cpp; "clear(deviceId) removes all bindings for
    a device". *)
Definition clear (device_id : Z) (m : gmap HostDeviceKey KeyTarget)
  : gmap HostDeviceKey KeyTarget :=
  filter (fun kv => snd (fst kv) <> device_id) m.

(** Modelled from the spec: [KeyMap::SetKeyMapping] is defined in
    core/frontend/key_map.cpp; "setBinding(deviceId, physicalCode,
    logicalCode) inserts/overwrites one entry". *)
Definition set_binding (key : HostDeviceKey) (target : KeyTarget)
    (m : gmap HostDeviceKey KeyTarget) : gmap HostDeviceKey KeyTarget :=
  <[key := target]> m.

Definition apply_edit (m : gmap HostDeviceKey KeyTarget) (e : Edit)
  : gmap HostDeviceKey KeyTarget :=
  match e with
  | ClearKeyMapping d => clear d m
  | SetKeyMapping k t => set_binding k t m
  end.

Definition apply_edits (es : list Edit) (m : gmap HostDeviceKey KeyTarget)
  : gmap HostDeviceKey KeyTarget :=
  fold_left apply_edit es m.
End Table.
Arguments Edit : clear implicits.
End KeyMap.

(** ** GRenderWindow *)

Module GRenderWindow.

(** The members the embedded functions read. *)
Record t := {
  keyboard_id : Z;
  (** [EmuThread* emu_thread]; [None] is [nullptr]. *)
  emu_thread : option nat;
  (** [std::vector<std::tuple<SDL_GameControllerButton, int>>] *)
  gamepad_mappings : list (Z * Z)
}.

(** The table [GamepadSetMappings] builds with its ten [push_back]s. *)
Definition GamepadSetMappings_table : list (Z * Z) :=
  [ (SDL_CONTROLLER_BUTTON_A, 65);
    (SDL_CONTROLLER_BUTTON_B, 83);
    (SDL_CONTROLLER_BUTTON_X, 90);
    (SDL_CONTROLLER_BUTTON_Y, 88);
    (SDL_CONTROLLER_BUTTON_START, 77);
    (SDL_CONTROLLER_BUTTON_BACK, 78);
    (SDL_CONTROLLER_BUTTON_DPAD_DOWN, 71);
    (SDL_CONTROLLER_BUTTON_DPAD_LEFT, 70);
    (SDL_CONTROLLER_BUTTON_DPAD_RIGHT, 72);
    (SDL_CONTROLLER_BUTTON_DPAD_UP, 84) ].

Definition GamepadSetMappings (w : t) : t :=
  {| keyboard_id := keyboard_id w;
     emu_thread := emu_thread w;
     gamepad_mappings := GamepadSetMappings_table |}.

(** [SDL_ControllerButtonEvent]: the fields read. *)
Record SDL_ControllerButtonEvent := {
  button : Z;
  state : Z
}.

(** [SDL_ControllerAxisEvent]: the fields read. *)
Record SDL_ControllerAxisEvent := {
  axis : Z;
  value : Z
}.

(** [std::find_if] with the predicate [std::get<0>(e) == event->button]:
    the first entry for the button, [None] for [end()]. *)
Fixpoint find_if (b : Z) (l : list (Z * Z)) : option (Z * Z) :=
  match l with
  | [] => None
  | e :: rest => if Z.eqb (fst e) b then Some e else find_if b rest
  end.

Definition gamepadButtonEvent (w : t) (event : SDL_ControllerButtonEvent)
  : list KeyMapInput :=
  match find_if (button event) (gamepad_mappings w) with
  | Some it =>
      let keycode := snd it in
      if Z.eqb (state event) SDL_PRESSED
      then [PressKey (keycode, keyboard_id w)]
      else [ReleaseKey (keycode, keyboard_id w)]
  | None => []
  end.

Definition gamepadAxisEvent (w : t) (event : SDL_ControllerAxisEvent)
  : list KeyMapInput :=
  (if Z.eqb (axis event) SDL_CONTROLLER_AXIS_LEFTX then
     [ if Z.ltb (value event) (-8000)
       then PressKey (Key_Left, keyboard_id w)
       else ReleaseKey (Key_Left, keyboard_id w);
       if Z.ltb 8000 (value event)
       then PressKey (Key_Right, keyboard_id w)
       else ReleaseKey (Key_Right, keyboard_id w) ]
   else [])
  ++
  (if Z.eqb (axis event) SDL_CONTROLLER_AXIS_LEFTY then
     [ if Z.ltb (value event) (-8000)
       then PressKey (Key_Up, keyboard_id w)
       else ReleaseKey (Key_Up, keyboard_id w);
       if Z.ltb 8000 (value event)
       then PressKey (Key_Down, keyboard_id w)
       else ReleaseKey (Key_Down, keyboard_id w) ]
   else []).

(** [emu_thread != nullptr] *)
Definition emu_thread_set (w : t) : bool :=
  match emu_thread w with
  | Some _ => true
  | None => false
  end.

(** The [QThread*] an [EmuThread*] converts to; [nullptr] never reaches
    [moveToThread], the condition of [moveContext] excludes it. *)
Definition emu_thread_ptr (w : t) : QThread :=
  match emu_thread w with
  | Some e => emu_qthread e
  | None => qApp_thread
  end.

(** [MakeCurrent] and [DoneCurrent], called on thread [caller]. *)
Definition MakeCurrent (caller : QThread) : list GLCall := [makeCurrent caller].

Definition DoneCurrent (caller : QThread) : list GLCall := [doneCurrent caller].

(** [moveContext], called on thread [caller]
    ([QThread::currentThread()]). *)
Definition moveContext (cfg : BuildConfig) (w : t) (caller : QThread)
  : list GLCall :=
  DoneCurrent caller ++
  (if qt_version_gt_5_0_0 cfg then
     let thread :=
       if QThread_eqb caller qApp_thread && emu_thread_set w
       then emu_thread_ptr w
       else qApp_thread in
     [moveToThread caller thread]
   else []).

Definition SwapBuffers (cfg : BuildConfig) (caller : QThread) : list GLCall :=
  (if negb (qt_no_debug cfg) then [makeCurrent caller] else [])
  ++ [swapBuffers caller].

Section Reload.
Context {KeyTarget : Type}.
(** [Settings::NativeInput::NUM_INPUTS], [Settings::NativeInput::All],
    [Settings::values.input_mappings] and [KeyMap::mapping_targets] are
    declared outside this file; the arrays are read at indices below
    [NUM_INPUTS] only. *)
Variable NUM_INPUTS : nat.
Variable All : nat -> nat.
Variable input_mappings : nat -> Z.
Variable mapping_targets : nat -> KeyTarget.

(** The body of the [for] loop at index [i]. *)
Definition reload_binding (w : t) (i : nat) : KeyMap.Edit KeyTarget :=
  KeyMap.SetKeyMapping (input_mappings (All i), keyboard_id w)
                       (mapping_targets i).

Definition ReloadSetKeymaps (w : t) : list (KeyMap.Edit KeyTarget) :=
  KeyMap.ClearKeyMapping (keyboard_id w)
  :: List.map (reload_binding w) (seq 0 NUM_INPUTS).

(** The table after the clear and the first [n] rounds of the loop. *)
Definition reload_rounds (w : t) (n : nat)
    (m : gmap HostDeviceKey KeyTarget) : gmap HostDeviceKey KeyTarget :=
  KeyMap.apply_edits (List.map (reload_binding w) (seq 0 n))
                     (KeyMap.clear (keyboard_id w) m).
End Reload.

End GRenderWindow.

(** ** EmuThread *)

Module EmuThread.

(** The flags shared with the presentation thread. *)
Record Flags := {
  exec_step : bool;
  running : bool;
  stop_run : bool
}.

Definition set_exec_step (b : bool) (f : Flags) : Flags :=
  {| exec_step := b; running := running f; stop_run := stop_run f |}.
Definition set_running (b : bool) (f : Flags) : Flags :=
  {| exec_step := exec_step f; running := b; stop_run := stop_run f |}.
Definition set_stop_run (b : bool) (f : Flags) : Flags :=
  {| exec_step := exec_step f; running := running f; stop_run := b |}.

(** The state the constructor leaves:
    [exec_step(false), running(false), stop_run(false)]. *)
Definition constructed : Flags :=
  {| exec_step := false; running := false; stop_run := false |}.

(** What [run] does that another component can observe. *)
Inductive Event :=
| GL (c : GLCall)
| DebugModeLeft
| DebugModeEntered
| RunLoop
| SingleStep
| Shutdown
| yieldCurrentThread
(** the thread goes to sleep inside [running_cv.wait] *)
| cv_block.

(** Program points of [run], named by source line. Each point makes at
    most one access to a shared flag or one outside call, so that a
    request of the presentation thread can land between any two of them. *)
Inductive PC :=
| L28  (** [render_window->MakeCurrent()] *)
| L32  (** [stop_run = false] *)
| L37  (** [bool was_active = false] *)
| L38  (** [while (!stop_run)] *)
| L39  (** [if (running)] *)
| L40  (** [if (!was_active) emit DebugModeLeft()] *)
| L43  (** [RunLoop()] *)
| L45  (** [was_active = running || ...]: reads [running] *)
| L45_rhs (** [... || exec_step]: reads [exec_step] *)
| L46  (** [if (!was_active && !stop_run) emit DebugModeEntered()] *)
| L48  (** [else if (exec_step)] *)
| L49  (** [if (!was_active) emit DebugModeLeft()] *)
| L52  (** [exec_step = false] *)
| L53  (** [SingleStep()] *)
| L54  (** [emit DebugModeEntered()] *)
| L55  (** [yieldCurrentThread()] *)
| L57  (** [was_active = false] *)
| L60  (** [running_cv.wait(lock, pred)]: evaluates [pred] *)
| L60_blocked (** asleep in [wait], lock released *)
| L65  (** [Shutdown()] *)
| L71  (** [render_window->moveContext()] *)
| Finished.

Record Config := {
  pc : PC;
  was_active : bool;
  flags : Flags
}.

Definition goto (p : PC) (c : Config) : Config :=
  {| pc := p; was_active := was_active c; flags := flags c |}.
Definition goto_active (p : PC) (b : bool) (c : Config) : Config :=
  {| pc := p; was_active := b; flags := flags c |}.
Definition goto_flags (p : PC) (f : Flags) (c : Config) : Config :=
  {| pc := p; was_active := was_active c; flags := f |}.

(** The predicate of the wait at line 60:
    [IsRunning() || exec_step || stop_run]. *)
Definition wait_pred (f : Flags) : bool :=
  running f || exec_step f || stop_run f.

Section Run.
Variable cfg : BuildConfig.
(** [render_window] and the identity of the thread executing [run]. *)
Variable render_window : GRenderWindow.t.
Variable this : nat.

Definition self : QThread := emu_qthread this.

(** One step of the thread executing [run]. *)
Definition sched_step (c : Config) : Config * list Event :=
  let f := flags c in
  match pc c with
  | L28 => (goto L32 c, List.map GL (GRenderWindow.MakeCurrent self))
  | L32 => (goto_flags L37 (set_stop_run false f) c, [])
  | L37 => (goto_active L38 false c, [])
  | L38 => if stop_run f then (goto L65 c, []) else (goto L39 c, [])
  | L39 => if running f then (goto L40 c, []) else (goto L48 c, [])
  | L40 => (goto L43 c, if was_active c then [] else [DebugModeLeft])
  | L43 => (goto L45 c, [RunLoop])
  | L45 => if running f then (goto_active L46 true c, [])
           else (goto L45_rhs c, [])
  | L45_rhs => (goto_active L46 (exec_step f) c, [])
  | L46 => if was_active c then (goto L38 c, [])
           else if stop_run f then (goto L38 c, [])
           else (goto L38 c, [DebugModeEntered])
  | L48 => if exec_step f then (goto L49 c, []) else (goto L60 c, [])
  | L49 => (goto L52 c, if was_active c then [] else [DebugModeLeft])
  | L52 => (goto_flags L53 (set_exec_step false f) c, [])
  | L53 => (goto L54 c, [SingleStep])
  | L54 => (goto L55 c, [DebugModeEntered])
  | L55 => (goto L57 c, [yieldCurrentThread])
  | L57 => (goto_active L38 false c, [])
  | L60 => if wait_pred f then (goto L38 c, [])
           else (goto L60_blocked c, [cv_block])
  | L60_blocked => (c, [])
  | L65 => (goto L71 c, [Shutdown])
  | L71 => (goto Finished c,
            List.map GL (GRenderWindow.moveContext cfg render_window self))
  | Finished => (c, [])
  end.

(** Requests of the presentation thread. *)
Inductive Request :=
| SetRunning (b : bool)
| ExecStep
| RequestStop.

(** Modelled from the spec: the request members are defined in
    citra_qt/bootmanager.h. [setRunning(bool)] stores the running flag,
    [requestSingleStep()] sets the step flag, and stopping "sets the stop
    flag and signals the condition variable"; "all reads/writes that
    participate in the wait predicate" are "synchronized through the same
    mutex used by the condition variable". *)
Definition request_flags (r : Request) (f : Flags) : Flags :=
  match r with
  | SetRunning b => set_running b f
  | ExecStep => set_exec_step true f
  | RequestStop => set_stop_run true f
  end.

(** A notification of the condition variable: a sleeping thread goes
    back to evaluating the predicate, any other is not affected. *)
Definition notify (c : Config) : Config :=
  match pc c with
  | L60_blocked => goto L60 c
  | _ => c
  end.

Definition request_step (r : Request) (c : Config) : Config :=
  notify (goto_flags (pc c) (request_flags r (flags c)) c).

(** What can happen next: the scheduler thread moves, the presentation
    thread makes a request, or the sleeping thread wakes spuriously. *)
Inductive Action :=
| Sched
| Req (r : Request)
| SpuriousWake.

Definition step (a : Action) (c : Config) : Config * list Event :=
  match a with
  | Sched => sched_step c
  | Req r => (request_step r c, [])
  | SpuriousWake => (notify c, [])
  end.

(** An interleaving is a list of actions. *)
Fixpoint exec (c : Config) (sched : list Action) : Config * list Event :=
  match sched with
  | [] => (c, [])
  | a :: rest =>
      let (c1, e1) := step a c in
      let (c2, e2) := exec c1 rest in
      (c2, e1 ++ e2)
  end.

(** [run] is entered at line 28 with the flags as they are then. *)
Definition entry (f : Flags) : Config :=
  {| pc := L28; was_active := false; flags := f |}.

(** The MicroProfile hooks of lines 30 and 67 to 69 touch none of this
    state and are left out. *)
End Run.

(** The flags after a series of requests. *)
Definition requests_flags (rs : list Request) (f : Flags) : Flags :=
  fold_left (fun f r => request_flags r f) rs f.

(** The program points after the loop. *)
Definition left_loop (p : PC) : bool :=
  match p with
  | L65 | L71 | Finished => true
  | _ => false
  end.

(** *** Reading a trace *)

Definition is_SingleStep (e : Event) : bool :=
  match e with SingleStep => true | _ => false end.
Definition is_Shutdown (e : Event) : bool :=
  match e with Shutdown => true | _ => false end.
Definition is_DebugModeLeft (e : Event) : bool :=
  match e with DebugModeLeft => true | _ => false end.
Definition is_DebugModeEntered (e : Event) : bool :=
  match e with DebugModeEntered => true | _ => false end.
Definition is_notification (e : Event) : bool :=
  is_DebugModeLeft e || is_DebugModeEntered e.
Definition is_ExecStep (a : Action) : bool :=
  match a with Req ExecStep => true | _ => false end.

Definition count {A} (p : A -> bool) (l : list A) : nat :=
  length (List.filter p l).

(** The notifications of a trace alternate, [next_left] telling which
    kind is due next. *)
Fixpoint alternates (next_left : bool) (tr : list Event) : bool :=
  match tr with
  | [] => true
  | DebugModeLeft :: rest => next_left && alternates false rest
  | DebugModeEntered :: rest => negb next_left && alternates true rest
  | _ :: rest => alternates next_left rest
  end.

(** Whether the machine executes, as a trace shows it: [RunLoop] and
    [SingleStep] are the thread executing, [cv_block] is the thread going
    idle; the other events tell nothing. *)
Definition activity (e : Event) : option bool :=
  match e with
  | RunLoop | SingleStep => Some true
  | cv_block => Some false
  | _ => None
  end.

(** The number of changes from activity [from] to its opposite in a
    trace, [cur] being the activity before the trace. *)
Fixpoint transitions (from cur : bool) (tr : list Event) : nat :=
  match tr with
  | [] => 0
  | e :: rest =>
      match activity e with
      | Some a =>
          (if Bool.eqb cur from && negb (Bool.eqb a from) then 1 else 0)
          + transitions from a rest
      | None => transitions from cur rest
      end
  end%nat.

(** The program points inside [running_cv.wait]. *)
Definition in_wait (p : PC) : bool :=
  match p with
  | L60 | L60_blocked => true
  | _ => false
  end.

Definition is_request (a : Action) : bool :=
  match a with Req _ => true | _ => false end.
Definition is_wake (a : Action) : bool :=
  match a with SpuriousWake => true | _ => false end.
Definition is_cv_block (e : Event) : bool :=
  match e with cv_block => true | _ => false end.

(** *** Invariants of the loop *)

(** Which notification is due next at a program point: [next_left] is
    [true] when the next one must be [DebugModeLeft]. At the loop head an
    inactive thread that owes a [DebugModeEntered] has seen the stop
    request at line 46. *)
Definition notification_due (c : Config) (next_left : bool) : bool :=
  match pc c with
  | L28 | L32 | L37 => next_left
  | L38 =>
      if was_active c then negb next_left
      else next_left || stop_run (flags c)
  | L39 | L40 | L48 | L49 | L60 | L60_blocked =>
      if was_active c then negb next_left else next_left
  | L43 | L45 | L45_rhs | L46 | L52 | L53 | L54 => negb next_left
  | L55 | L57 => next_left
  | L65 | L71 | Finished => true
  end.

(** Single steps still owed: one for a set step flag, one for a thread
    that has cleared it and stands before [SingleStep]. *)
Definition steps_owed (c : Config) : nat :=
  ((if exec_step (flags c) then 1 else 0)
   + (match pc c with L53 => 1 | _ => 0 end))%nat.

(** Between the test of line 48 and the clearing of line 52 the step flag
    is set. *)
Definition step_flag_held (c : Config) : bool :=
  match pc c with
  | L49 | L52 => exec_step (flags c)
  | _ => true
  end.

(** The calls of the exit path: the shutdown, the release of the context
    and its move. *)
Definition is_exit_event (e : Event) : bool :=
  match e with
  | Shutdown | GL (doneCurrent _) | GL (moveToThread _ _) => true
  | _ => false
  end.

Section Exit.
Variable cfg : BuildConfig.
Variable render_window : GRenderWindow.t.
Variable this : nat.

(** What the trace so far holds of the exit actions. *)
Definition exit_progress (c : Config) (tr : list Event) : Prop :=
  match pc c with
  | L71 =>
      exists before,
        tr = before ++ [Shutdown] /\ count is_exit_event before = 0%nat
  | Finished =>
      exists before,
        tr = before ++ Shutdown
                :: List.map GL (GRenderWindow.moveContext cfg render_window
                                  (self this))
        /\ count is_exit_event before = 0%nat
  | _ => count is_exit_event tr = 0%nat
  end.
End Exit.

End EmuThread.

(** ** The vocabulary of the design document *)

(** "AxisState: ... discretized direction (one of {Negative, Neutral,
    Positive})", with the deadzone of the source. *)
Inductive Direction := Negative | Neutral | Positive.

Definition discretize (v : Z) : Direction :=
  if decide (v < -8000) then Negative
  else if decide (v > 8000) then Positive
  else Neutral.

(** The two calls of one axis for a direction. *)
Definition axis_calls (neg pos : HostDeviceKey) (d : Direction)
  : list KeyMapInput :=
  match d with
  | Negative => [PressKey neg; ReleaseKey pos]
  | Neutral => [ReleaseKey neg; ReleaseKey pos]
  | Positive => [ReleaseKey neg; PressKey pos]
  end.

(** The device a forwarded input is tagged with. *)
Definition device_of (c : KeyMapInput) : Z :=
  match c with
  | PressKey k | ReleaseKey k => snd k
  end.

Definition key_code_of (c : KeyMapInput) : Z :=
  match c with
  | PressKey k | ReleaseKey k => fst k
  end.

(** ** Sample inputs *)

Module Samples.
Import GRenderWindow.

(** A window after construction: the keyboard has device id 0, no
    emulation has been started. *)
Definition window : GRenderWindow.t :=
  GamepadSetMappings
    {| keyboard_id := 0; emu_thread := None; gamepad_mappings := [] |}.

Definition left_x (v : Z) : SDL_ControllerAxisEvent :=
  {| axis := SDL_CONTROLLER_AXIS_LEFTX; value := v |}.
Definition left_y (v : Z) : SDL_ControllerAxisEvent :=
  {| axis := SDL_CONTROLLER_AXIS_LEFTY; value := v |}.

(** The axis values of the document's debouncing example. *)
Definition axis_values : list Z := [0; -9000; -9000; 0; 9000].

Definition press_A : SDL_ControllerButtonEvent :=
  {| button := SDL_CONTROLLER_BUTTON_A; state := SDL_PRESSED |}.

Definition qt5_debug : BuildConfig :=
  {| qt_version_gt_5_0_0 := true; qt_no_debug := false |}.
Definition qt5_release : BuildConfig :=
  {| qt_version_gt_5_0_0 := true; qt_no_debug := true |}.
(** A build against Qt 4: [QT_VERSION] is not above 5.0.0. *)
Definition qt4_debug : BuildConfig :=
  {| qt_version_gt_5_0_0 := false; qt_no_debug := false |}.

(** The thread runs one iteration of the run branch; [SetRunning(false)]
    lands between that iteration and the next; the thread goes to sleep;
    [SetRunning(true)] wakes it and it runs again. *)
Definition pause_between_iterations : list EmuThread.Action :=
  [ EmuThread.Sched; EmuThread.Sched; EmuThread.Sched;
    EmuThread.Req (EmuThread.SetRunning true);
    EmuThread.Sched; EmuThread.Sched; EmuThread.Sched; EmuThread.Sched;
    EmuThread.Sched; EmuThread.Sched;
    EmuThread.Req (EmuThread.SetRunning false);
    EmuThread.Sched; EmuThread.Sched; EmuThread.Sched; EmuThread.Sched;
    EmuThread.Req (EmuThread.SetRunning true);
    EmuThread.Sched; EmuThread.Sched; EmuThread.Sched; EmuThread.Sched;
    EmuThread.Sched ].

(** A thread asleep in the wait with nothing requested. *)
Definition asleep : EmuThread.Config :=
  {| EmuThread.pc := EmuThread.L60_blocked;
     EmuThread.was_active := false;
     EmuThread.flags := EmuThread.constructed |}.

(** A thread evaluating the wait predicate with nothing requested. *)
Definition at_wait : EmuThread.Config :=
  {| EmuThread.pc := EmuThread.L60;
     EmuThread.was_active := false;
     EmuThread.flags := EmuThread.constructed |}.

(** A thread at the loop head with the stop flag set. *)
Definition stopping : EmuThread.Config :=
  {| EmuThread.pc := EmuThread.L38;
     EmuThread.was_active := true;
     EmuThread.flags := EmuThread.set_stop_run true EmuThread.constructed |}.

(** A session: start, run, stop. *)
Definition session : list EmuThread.Action :=
  [ EmuThread.Sched; EmuThread.Sched; EmuThread.Sched;
    EmuThread.Req (EmuThread.SetRunning true);
    EmuThread.Sched; EmuThread.Sched; EmuThread.Sched; EmuThread.Sched;
    EmuThread.Req EmuThread.RequestStop;
    EmuThread.Sched; EmuThread.Sched;
    EmuThread.Sched; EmuThread.Sched; EmuThread.Sched ].

(** A configuration of three inputs, the last two on one key. *)
Definition cfg_All (i : nat) : nat := i.
Definition cfg_input_mappings (v : nat) : Z :=
  match v with
  | O => 65
  | _ => 83
  end.
Definition cfg_mapping_targets (i : nat) : nat := (10 + i)%nat.

End Samples.

(** ** GRenderWindow: polling, keyboard, mouse and session members *)

Module Shell.
Import GRenderWindow.

(** [SDL_EventType] (SDL_events.h): 0x650, 0x651, 0x652. *)
Definition SDL_CONTROLLERAXISMOTION : Z := 1616.
Definition SDL_CONTROLLERBUTTONDOWN : Z := 1617.
Definition SDL_CONTROLLERBUTTONUP : Z := 1618.

(** [SDL_Event] is a union; the members [PollEvents] reads. *)
Record SDL_Event := {
  type : Z;
  cbutton : SDL_ControllerButtonEvent;
  caxis : SDL_ControllerAxisEvent
}.

(** The [switch] of [PollEvents]. *)
Definition PollEvents_switch (w : GRenderWindow.t) (event : SDL_Event)
  : list KeyMapInput :=
  if Z.eqb (type event) SDL_CONTROLLERBUTTONUP
     || Z.eqb (type event) SDL_CONTROLLERBUTTONDOWN
  then gamepadButtonEvent w (cbutton event)
  else if Z.eqb (type event) SDL_CONTROLLERAXISMOTION
  then gamepadAxisEvent w (caxis event)
  else [].

(** [PollEvents]: [pending] is what [SDL_PollEvent] hands out, in order,
    before it returns 0. *)
Fixpoint PollEvents (w : GRenderWindow.t) (pending : list SDL_Event)
  : list KeyMapInput :=
  match pending with
  | [] => []
  | event :: rest => PollEvents_switch w event ++ PollEvents w rest
  end.

(** [keyPressEvent] and [keyReleaseEvent], [key] being [event->key()]. *)
Definition keyPressEvent (w : GRenderWindow.t) (key : Z) : list KeyMapInput :=
  [PressKey (key, keyboard_id w)].
Definition keyReleaseEvent (w : GRenderWindow.t) (key : Z) : list KeyMapInput :=
  [ReleaseKey (key, keyboard_id w)].

Definition is_press (c : KeyMapInput) : bool :=
  match c with PressKey _ => true | ReleaseKey _ => false end.

(** *** The controllers opened by [GamepadSetMappings] *)

(** The range of a 32-bit [int], and the value an [int] result has after
    two's-complement wrap-around. *)
Definition INT_MIN : Z := -2147483648.
Definition INT_MAX : Z := 2147483647.
Definition int_wrap (z : Z) : Z := (z + 2147483648) mod 4294967296 - 2147483648.

Section Controllers.
(** [SDL_GameController*]; [SDL_GameControllerOpen] is SDL's. *)
Context {Pad : Type}.
Variable SDL_GameControllerOpen : Z -> Pad.

(** The [for] loop of lines 195 to 201, [fuel] bounding its rounds. The
    result of [SDL_JoystickOpen] is not stored and [ControllerIndex] is
    not used. [++JoystickIndex] is [int] arithmetic. *)
Fixpoint open_controllers (fuel : nat) (JoystickIndex MaxJoysticks : Z)
    (gamepad_controllers : list Pad) : list Pad :=
  match fuel with
  | O => gamepad_controllers
  | S fuel' =>
      if Z.ltb JoystickIndex MaxJoysticks
      then open_controllers fuel' (int_wrap (JoystickIndex + 1)) MaxJoysticks
             (gamepad_controllers ++ [SDL_GameControllerOpen JoystickIndex])
      else gamepad_controllers
  end.

(** [gamepad_controllers] after [GamepadSetMappings], [num_joysticks]
    being what [SDL_NumJoysticks()] returns;
    [int MaxJoysticks = SDL_NumJoysticks() + 1] is [int] arithmetic. *)
Definition GamepadSetMappings_controllers (fuel : nat) (num_joysticks : Z)
  : list Pad :=
  let MaxJoysticks := int_wrap (num_joysticks + 1) in
  open_controllers fuel 0 MaxJoysticks [].
End Controllers.

(** *** The child widget and the session members *)

(** [GGLWidgetInternal]: [do_painting] has no initializer, [None] is the
    member before its first assignment. *)
Record GGLWidgetInternal := {
  do_painting : option bool
}.

Definition DisablePainting (c : GGLWidgetInternal) : GGLWidgetInternal :=
  {| do_painting := Some false |}.
Definition EnablePainting (c : GGLWidgetInternal) : GGLWidgetInternal :=
  {| do_painting := Some true |}.

(** [paintEvent]: whether a [QPainter] is constructed. *)
Definition paintEvent (c : GGLWidgetInternal) : option bool := do_painting c.

(** The window with the members the session functions write. *)
Record t := {
  window : GRenderWindow.t;
  (** [std::unique_ptr<Motion::MotionEmu>]: whether it holds an object *)
  motion_emu : bool;
  (** [GGLWidgetInternal* child]; [None] is [nullptr] *)
  child : option GGLWidgetInternal
}.

Definition set_emu_thread (e : option nat) (w : GRenderWindow.t)
  : GRenderWindow.t :=
  {| keyboard_id := keyboard_id w;
     emu_thread := e;
     gamepad_mappings := gamepad_mappings w |}.

(** [OnEmulationStarting]; [None] when [child] is [nullptr] at
    [child->DisablePainting()]. *)
Definition OnEmulationStarting (e : nat) (s : t) : option t :=
  match child s with
  | Some c =>
      Some {| window := set_emu_thread (Some e) (window s);
              motion_emu := true;
              child := Some (DisablePainting c) |}
  | None => None
  end.

(** [OnEmulationStopping]; [None] when [child] is [nullptr]. *)
Definition OnEmulationStopping (s : t) : option t :=
  match child s with
  | Some c =>
      Some {| window := set_emu_thread None (window s);
              motion_emu := false;
              child := Some (EnablePainting c) |}
  | None => None
  end.

(** [closeEvent]: the state it leaves. *)
Definition closeEvent (s : t) : t :=
  {| window := window s; motion_emu := false; child := child s |}.

(** *** Mouse events *)

(** [Qt::MouseButton]. *)
Definition Qt_LeftButton : Z := 1.
Definition Qt_RightButton : Z := 2.

Record QMouseEvent := {
  pos_x : Z;
  pos_y : Z;
  mouse_button : Z
}.

(** Calls on the touch screen of the window and on [motion_emu]. *)
Inductive MotionCall :=
| TouchPressed (x y : Z)
| TouchMoved (x y : Z)
| TouchReleased
| BeginTilt (x y : Z)
| Tilt (x y : Z)
| EndTilt.

(** A handler returns, or dereferences the empty [motion_emu] after the
    calls made so far. *)
Inductive Outcome :=
| Returned (calls : list MotionCall)
| NullDereference (calls : list MotionCall).

Section Mouse.
(** [static_cast<unsigned>(p * pixelRatio)]: the floating-point scaling is
    a parameter. *)
Variable to_pixels : Z -> Z.

Definition mousePressEvent (s : t) (event : QMouseEvent) : Outcome :=
  if Z.eqb (mouse_button event) Qt_LeftButton then
    Returned [TouchPressed (to_pixels (pos_x event)) (to_pixels (pos_y event))]
  else if Z.eqb (mouse_button event) Qt_RightButton then
    if motion_emu s
    then Returned [BeginTilt (pos_x event) (pos_y event)]
    else NullDereference []
  else Returned [].

Definition mouseMoveEvent (s : t) (event : QMouseEvent) : Outcome :=
  let moved := TouchMoved (Z.max (to_pixels (pos_x event)) 0)
                          (Z.max (to_pixels (pos_y event)) 0) in
  if motion_emu s
  then Returned [moved; Tilt (pos_x event) (pos_y event)]
  else NullDereference [moved].

Definition mouseReleaseEvent (s : t) (event : QMouseEvent) : Outcome :=
  if Z.eqb (mouse_button event) Qt_LeftButton then Returned [TouchReleased]
  else if Z.eqb (mouse_button event) Qt_RightButton then
    if motion_emu s then Returned [EndTilt] else NullDereference []
  else Returned [].
End Mouse.

Definition returned (o : Outcome) : bool :=
  match o with Returned _ => true | NullDereference _ => false end.

End Shell.

(** ** GRenderWindow: geometry backup *)

Module Geometry.
Section Qt.
(** The widget as Qt sees it, a [QByteArray], and [QWidget]'s own
    [saveGeometry] and [restoreGeometry]. *)
Context {Widget Bytes : Type}.
Variable QWidget_saveGeometry : Widget -> Bytes.
Variable QWidget_restoreGeometry : Bytes -> Widget -> Widget.

Record t := {
  widget : Widget;
  (** the member [geometry] *)
  geometry : Bytes;
  (** [parent() != nullptr] *)
  has_parent : bool
}.

Definition BackupGeometry (s : t) : t :=
  {| widget := widget s;
     geometry := QWidget_saveGeometry (widget s);
     has_parent := has_parent s |}.

Definition RestoreGeometry (s : t) : t :=
  {| widget := QWidget_restoreGeometry (geometry s) (widget s);
     geometry := geometry s;
     has_parent := has_parent s |}.

Definition restoreGeometry (g : Bytes) (s : t) : t :=
  BackupGeometry
    {| widget := QWidget_restoreGeometry g (widget s);
       geometry := geometry s;
       has_parent := has_parent s |}.

Definition saveGeometry (s : t) : Bytes :=
  if negb (has_parent s) then QWidget_saveGeometry (widget s)
  else geometry s.
End Qt.
Arguments t : clear implicits.
End Geometry.

(** ** EmuThread: reading traces and interleavings *)

Module RunTraces.
Import EmuThread.

Definition is_Sched (a : Action) : bool :=
  match a with Sched => true | _ => false end.
Definition is_machine_call (e : Event) : bool :=
  match e with RunLoop | SingleStep => true | _ => false end.
Definition is_pause_request (a : Action) : bool :=
  match a with Req (SetRunning false) => true | _ => false end.

(** The requests of an interleaving, in order. *)
Fixpoint requests_of (sched : list Action) : list Request :=
  match sched with
  | [] => []
  | Req r :: rest => r :: requests_of rest
  | _ :: rest => requests_of rest
  end.

(** The machine is called only after a [DebugModeLeft] that no
    [DebugModeEntered] has followed yet, and the notifications alternate;
    [debug_mode] tells whether the last notification was
    [DebugModeEntered] (or none was made). *)
Fixpoint machine_guarded (debug_mode : bool) (tr : list Event) : bool :=
  match tr with
  | [] => true
  | DebugModeLeft :: rest => debug_mode && machine_guarded false rest
  | DebugModeEntered :: rest => negb debug_mode && machine_guarded true rest
  | RunLoop :: rest | SingleStep :: rest =>
      negb debug_mode && machine_guarded debug_mode rest
  | _ :: rest => machine_guarded debug_mode rest
  end.

(** Where the thread stands with the context. *)
Inductive ContextPhase :=
| NotTaken   (** before [makeCurrent] *)
| Held       (** current on the thread *)
| Released   (** after [doneCurrent] *)
| Moved.     (** after [moveToThread] *)

(** The one course a trace of thread [self] may take with the context,
    from phase [ph] on: not taken, the only event is [makeCurrent] on
    [self]; held, any event but a context call, or [doneCurrent] on [self];
    released, the only event is [moveToThread] from [self] to the
    presentation thread; moved, no event at all. *)
Fixpoint context_course (self : QThread) (ph : ContextPhase)
    (tr : list Event) : bool :=
  match tr with
  | [] => true
  | e :: rest =>
      match ph, e with
      | NotTaken, GL (makeCurrent t) =>
          QThread_eqb t self && context_course self Held rest
      | Held, GL (doneCurrent t) =>
          QThread_eqb t self && context_course self Released rest
      | Held, GL _ => false
      | Held, _ => context_course self Held rest
      | Released, GL (moveToThread t dest) =>
          QThread_eqb t self && QThread_eqb dest qApp_thread
          && context_course self Moved rest
      | _, _ => false
      end
  end.

(** The phase at a program point, in a build that moves the context
    ([moves]) or not. *)
Definition phase_at (moves : bool) (p : PC) : ContextPhase :=
  match p with
  | L28 => NotTaken
  | Finished => if moves then Moved else Released
  | _ => Held
  end.

(** The program points after the store of line 32. *)
Definition past_reset (p : PC) : bool :=
  match p with
  | L28 | L32 => false
  | _ => true
  end.

(** With the stop flag set: an upper bound on the steps of the thread to
    the end of [run]. *)
Definition exit_rank (p : PC) : nat :=
  match p with
  | Finished => 0
  | L71 => 1
  | L65 => 2
  | L38 => 3
  | L37 | L46 | L57 | L60 | L60_blocked => 4
  | L45_rhs | L55 => 5
  | L45 | L54 => 6
  | L43 | L53 => 7
  | L40 | L52 => 8
  | L49 => 9
  | L48 => 10
  | L39 => 11
  | L28 | L32 => 14
  end.

(** With the stop flag set: how many machine calls the thread can still
    make. *)
Definition machine_calls_left (p : PC) : nat :=
  match p with
  | L39 | L40 | L43 | L48 | L49 | L52 | L53 => 1
  | _ => 0
  end.

(** The program points from which [SingleStep] is reached without
    another test of [running]. *)
Definition in_step_branch (p : PC) : bool :=
  match p with
  | L48 | L49 | L52 | L53 => true
  | _ => false
  end.

End RunTraces.

(** ** More sample inputs *)

Module Samples2.

Definition started : Shell.t :=
  {| Shell.window := Samples.window;
     Shell.motion_emu := false;
     Shell.child := Some {| Shell.do_painting := None |} |}.

Definition move_event : Shell.QMouseEvent :=
  {| Shell.pos_x := 10; Shell.pos_y := 20; Shell.mouse_button := 0 |}.

Definition left_press : Shell.QMouseEvent :=
  {| Shell.pos_x := 10; Shell.pos_y := 20;
     Shell.mouse_button := Shell.Qt_LeftButton |}.

Definition right_press : Shell.QMouseEvent :=
  {| Shell.pos_x := 10; Shell.pos_y := 20;
     Shell.mouse_button := Shell.Qt_RightButton |}.

(** A timer event: no controller event. *)
Definition other_event : Shell.SDL_Event :=
  {| Shell.type := 256;
     Shell.cbutton := Samples.press_A;
     Shell.caxis := Samples.left_x 0 |}.

(** A thread in the run branch, after [RunLoop]. *)
Definition after_RunLoop : EmuThread.Config :=
  {| EmuThread.pc := EmuThread.L45;
     EmuThread.was_active := true;
     EmuThread.flags :=
       EmuThread.set_running true EmuThread.constructed |}.

(** A running thread at the loop head. *)
Definition running_at_head : EmuThread.Config :=
  {| EmuThread.pc := EmuThread.L38;
     EmuThread.was_active := false;
     EmuThread.flags :=
       EmuThread.set_running true EmuThread.constructed |}.

End Samples2.

(** * Properties *)

Import GRenderWindow.

(** ** Axis motion *)

Lemma discretize_negative v : v < -8000 -> discretize v = Negative.
Proof. intros H. unfold discretize. destruct (decide (v < -8000)); [reflexivity | lia]. Qed.

Lemma discretize_positive v : v > 8000 -> discretize v = Positive.
Proof.
  intros H. unfold discretize.
  destruct (decide (v < -8000)); [lia |].
  destruct (decide (v > 8000)); [reflexivity | lia].
Qed.

Lemma discretize_neutral v : -8000 <= v <= 8000 -> discretize v = Neutral.
Proof.
  intros H. unfold discretize.
  destruct (decide (v < -8000)); [lia |].
  destruct (decide (v > 8000)); [lia | reflexivity].
Qed.

Lemma gamepadAxisEvent_left_x w v :
  gamepadAxisEvent w (Samples.left_x v) =
  axis_calls (Key_Left, keyboard_id w) (Key_Right, keyboard_id w) (discretize v).
Proof.
  unfold gamepadAxisEvent, Samples.left_x, discretize; cbn.
  destruct (Z.ltb_spec v (-8000)), (Z.ltb_spec 8000 v);
    destruct (decide (v < -8000)), (decide (v > 8000));
    try lia; reflexivity.
Qed.

Lemma gamepadAxisEvent_left_y w v :
  gamepadAxisEvent w (Samples.left_y v) =
  axis_calls (Key_Up, keyboard_id w) (Key_Down, keyboard_id w) (discretize v).
Proof.
  unfold gamepadAxisEvent, Samples.left_y, discretize; cbn.
  destruct (Z.ltb_spec v (-8000)), (Z.ltb_spec 8000 v);
    destruct (decide (v < -8000)), (decide (v > 8000));
    try lia; reflexivity.
Qed.

(** C1, as stated, fails: whatever the negative and positive codes are,
    the five samples [0, -9000, -9000, 0, 9000] on the left X axis do not
    yield one release, one press, nothing, one release, one press. *)
Lemma C1_debounced_sequence_refuted :
  ~ (exists neg pos : HostDeviceKey,
        List.map (fun v => gamepadAxisEvent Samples.window (Samples.left_x v))
                 Samples.axis_values
        = [[ReleaseKey neg]; [PressKey neg]; []; [ReleaseKey neg]; [PressKey pos]]).
Proof.
  intros (neg & pos & H). vm_compute in H. discriminate H.
Qed.

(** C1, amended: every axis-motion sample on the left X (left Y) axis
    makes exactly two calls, one for the negative and one for the positive
    key, and which ones depends on the direction of that sample alone:
    press for the side beyond the deadzone, release for the other side or
    sides. No previous direction is kept, so the samples
    [0, -9000, -9000, 0, 9000] yield the five pairs below, the repeated
    -9000 making the same two calls again. *)
Theorem C1_axis_sample_calls :
  (forall w v,
      gamepadAxisEvent w (Samples.left_x v) =
      axis_calls (Key_Left, keyboard_id w) (Key_Right, keyboard_id w)
                 (discretize v))
  /\ (forall w v,
      gamepadAxisEvent w (Samples.left_y v) =
      axis_calls (Key_Up, keyboard_id w) (Key_Down, keyboard_id w)
                 (discretize v))
  /\ List.map (fun v => gamepadAxisEvent Samples.window (Samples.left_x v))
              Samples.axis_values
     = [ [ReleaseKey (Key_Left, 0); ReleaseKey (Key_Right, 0)];
         [PressKey (Key_Left, 0); ReleaseKey (Key_Right, 0)];
         [PressKey (Key_Left, 0); ReleaseKey (Key_Right, 0)];
         [ReleaseKey (Key_Left, 0); ReleaseKey (Key_Right, 0)];
         [ReleaseKey (Key_Left, 0); PressKey (Key_Right, 0)] ].
Proof.
  split; [exact gamepadAxisEvent_left_x |].
  split; [exact gamepadAxisEvent_left_y |].
  reflexivity.
Qed.

(** ** Controller buttons *)

Lemma find_if_Some b l it :
  find_if b l = Some it -> In it l /\ fst it = b.
Proof.
  induction l as [| e rest IH]; cbn; [discriminate |].
  destruct (Z.eqb_spec (fst e) b) as [Heq | Hne].
  - intros [= <-]. split; [now left | exact Heq].
  - intros H. destruct (IH H) as [Hin Hb]. split; [now right | exact Hb].
Qed.

Lemma find_if_None b l :
  find_if b l = None -> forall e, In e l -> fst e <> b.
Proof.
  induction l as [| e rest IH]; cbn; [intros _ ? [] |].
  destruct (Z.eqb_spec (fst e) b) as [Heq | Hne]; [discriminate |].
  intros H e' [<- | Hin]; [exact Hne | exact (IH H e' Hin)].
Qed.

Lemma gamepadButtonEvent_device w event :
  Forall (fun c => device_of c = keyboard_id w) (gamepadButtonEvent w event).
Proof.
  unfold gamepadButtonEvent.
  destruct (find_if (button event) (gamepad_mappings w)); [| constructor].
  destruct (Z.eqb (state event) SDL_PRESSED); repeat constructor.
Qed.

(** C2, as stated, fails: button A has an entry in the table, and its
    press is forwarded with the keyboard's device id; no other device id
    tags it. *)
Lemma C2_controller_device_refuted :
  find_if (button Samples.press_A) (gamepad_mappings Samples.window)
    = Some (SDL_CONTROLLER_BUTTON_A, 65)
  /\ gamepadButtonEvent Samples.window Samples.press_A
    = [PressKey (65, keyboard_id Samples.window)]
  /\ ~ (exists controller_id,
          controller_id <> keyboard_id Samples.window
          /\ Forall (fun c => device_of c = controller_id)
                    (gamepadButtonEvent Samples.window Samples.press_A)).
Proof.
  split; [reflexivity |]. split; [reflexivity |].
  intros (d & Hd & Hall). apply Hd.
  inversion Hall as [| c rest Hc _ Heq]; subst. cbn. reflexivity.
Qed.

(** C2, amended: a controller button event whose button has an entry in
    [gamepad_mappings] makes exactly one call, [PressKey] when the state is
    [SDL_PRESSED] and [ReleaseKey] otherwise, with the key code of the first
    entry for that button and the keyboard's device id [keyboard_id]; the
    window has no device id of its own for a controller. *)
Theorem C2_button_forwarded_as_keyboard w event it :
  find_if (button event) (gamepad_mappings w) = Some it ->
  In it (gamepad_mappings w) /\ fst it = button event
  /\ gamepadButtonEvent w event =
       [ (if Z.eqb (state event) SDL_PRESSED then PressKey else ReleaseKey)
           (snd it, keyboard_id w) ]
  /\ Forall (fun c => device_of c = keyboard_id w) (gamepadButtonEvent w event).
Proof.
  intros Hfind. destruct (find_if_Some _ _ _ Hfind) as [Hin Hb].
  split; [exact Hin |]. split; [exact Hb |].
  split; [| apply gamepadButtonEvent_device].
  unfold gamepadButtonEvent. rewrite Hfind.
  destruct (Z.eqb (state event) SDL_PRESSED); reflexivity.
Qed.

Lemma C2_button_forwarded_as_keyboard_witness :
  gamepadButtonEvent Samples.window Samples.press_A = [PressKey (65, 0)].
Proof.
  pose proof (C2_button_forwarded_as_keyboard Samples.window Samples.press_A
                (SDL_CONTROLLER_BUTTON_A, 65) eq_refl) as (_ & _ & H & _).
  exact H.
Defined.

(** ** The GL context *)

Lemma moveContext_from_emu cfg w n :
  moveContext cfg w (emu_qthread n) =
  doneCurrent (emu_qthread n) ::
  (if qt_version_gt_5_0_0 cfg
   then [moveToThread (emu_qthread n) qApp_thread] else []).
Proof. reflexivity. Qed.

(** C5, as stated, fails: in a build whose Qt is not above 5.0.0 a call of
    [moveContext] from the presentation thread, no emulation thread set,
    releases the context and moves it nowhere, where the destination rule
    sends it to the presentation thread. *)
Lemma C5_destination_in_every_build_refuted :
  moveContext Samples.qt4_debug Samples.window qApp_thread
  = [doneCurrent qApp_thread]
  /\ ~ (forall cfg w caller,
          exists dest,
            In (moveToThread caller dest) (moveContext cfg w caller)
            /\ dest = if QThread_eqb caller qApp_thread && emu_thread_set w
                      then emu_thread_ptr w else qApp_thread).
Proof.
  split; [reflexivity |].
  intros H.
  destruct (H Samples.qt4_debug Samples.window qApp_thread) as (dest & Hin & _).
  cbn in Hin. destruct Hin as [Hin | []]. discriminate Hin.
Qed.

(** C5, amended: [moveContext] takes no destination argument. Its first
    call is [doneCurrent] on the calling thread, and it makes no
    [makeCurrent] call: the acquire is left to the thread that gets the
    context. In a build with Qt above 5.0.0 it then makes one [moveToThread]
    call, to the emulation thread if the call comes from the presentation
    thread while [emu_thread] is set, and to the presentation thread in
    every other case; in any other build it only releases and moves
    nothing. *)
Theorem C5_moveContext_release_then_move cfg w caller :
  (exists rest,
      moveContext cfg w caller = doneCurrent caller :: rest
      /\ Forall (fun c => forall t, c <> makeCurrent t) (moveContext cfg w caller))
  /\ (qt_version_gt_5_0_0 cfg = true ->
      (forall e, emu_thread w = Some e -> caller = qApp_thread ->
                 moveContext cfg w caller =
                 [doneCurrent caller; moveToThread caller (emu_qthread e)])
      /\ (emu_thread w = None \/ caller <> qApp_thread ->
          moveContext cfg w caller =
          [doneCurrent caller; moveToThread caller qApp_thread]))
  /\ (qt_version_gt_5_0_0 cfg = false ->
      moveContext cfg w caller = [doneCurrent caller]).
Proof.
  split; [| split].
  - unfold moveContext, DoneCurrent. eexists; split; [reflexivity |].
    destruct (qt_version_gt_5_0_0 cfg); repeat constructor; discriminate.
  - intros Hqt. unfold moveContext, DoneCurrent. rewrite Hqt. split.
    + intros e He ->. unfold emu_thread_set, emu_thread_ptr. rewrite He.
      reflexivity.
    + intros [Hnone | Hcaller].
      * unfold emu_thread_set. rewrite Hnone, andb_false_r. reflexivity.
      * destruct caller as [| n]; [congruence | reflexivity].
  - intros Hqt. unfold moveContext, DoneCurrent. rewrite Hqt. reflexivity.
Qed.

Lemma C5_moveContext_release_then_move_witness :
  moveContext Samples.qt5_debug
    {| keyboard_id := 0; emu_thread := Some 1%nat; gamepad_mappings := [] |}
    qApp_thread
  = [doneCurrent qApp_thread; moveToThread qApp_thread (emu_qthread 1)]
  /\ moveContext Samples.qt5_debug Samples.window qApp_thread
  = [doneCurrent qApp_thread; moveToThread qApp_thread qApp_thread]
  /\ moveContext Samples.qt4_debug
       {| keyboard_id := 0; emu_thread := Some 1%nat; gamepad_mappings := [] |}
       qApp_thread
  = [doneCurrent qApp_thread].
Proof.
  split; [| split].
  - exact (proj1 (proj1 (proj2 (C5_moveContext_release_then_move
             Samples.qt5_debug
             {| keyboard_id := 0; emu_thread := Some 1%nat;
                gamepad_mappings := [] |} qApp_thread)) eq_refl)
             1%nat eq_refl eq_refl).
  - exact (proj2 (proj1 (proj2 (C5_moveContext_release_then_move
             Samples.qt5_debug Samples.window qApp_thread)) eq_refl)
             (or_introl eq_refl)).
  - exact (proj2 (proj2 (C5_moveContext_release_then_move Samples.qt4_debug
             {| keyboard_id := 0; emu_thread := Some 1%nat;
                gamepad_mappings := [] |} qApp_thread)) eq_refl).
Defined.

(** C6, as stated, fails: in a build that defines [QT_NO_DEBUG] a buffer
    swap makes no [makeCurrent] call. *)
Lemma C6_unconditional_makeCurrent_refuted :
  ~ (forall cfg caller,
        exists before after,
          SwapBuffers cfg caller
          = before ++ makeCurrent caller :: after ++ [swapBuffers caller]).
Proof.
  intros H. destruct (H Samples.qt5_release qApp_thread) as (b & a & Heq).
  cbn in Heq.
  destruct b as [| x [| y b]]; cbn in Heq; discriminate.
Qed.

(** C6, amended: in a build that does not define [QT_NO_DEBUG],
    [SwapBuffers] calls [makeCurrent] on the calling thread and then
    [swapBuffers]; in a build that defines it, [SwapBuffers] calls
    [swapBuffers] only. In both the swap is the last call. *)
Theorem C6_SwapBuffers_calls cfg caller :
  SwapBuffers cfg caller =
  if qt_no_debug cfg
  then [swapBuffers caller]
  else [makeCurrent caller; swapBuffers caller].
Proof. unfold SwapBuffers. destruct (qt_no_debug cfg); reflexivity. Qed.

(** ** Reloading the key map *)

Section ReloadFacts.
Context {KeyTarget : Type}.
Variable NUM_INPUTS : nat.
Variable All : nat -> nat.
Variable input_mappings : nat -> Z.
Variable mapping_targets : nat -> KeyTarget.
Variable w : GRenderWindow.t.

Local Abbreviation code := (fun i : nat => input_mappings (All i)).
Local Abbreviation after :=
  (reload_rounds All input_mappings mapping_targets w).

Lemma after_S n m :
  after (S n) m = <[(code n, keyboard_id w) := mapping_targets n]> (after n m).
Proof.
  unfold after, KeyMap.apply_edits.
  rewrite seq_S, List.map_app, fold_left_app. reflexivity.
Qed.

Lemma after_other_device n m k d :
  d <> keyboard_id w -> after n m !! (k, d) = m !! (k, d).
Proof.
  intros Hd. induction n as [| n IH].
  - unfold after, KeyMap.apply_edits, KeyMap.clear; cbn.
    destruct (m !! (k, d)) as [t |] eqn:Hm.
    + apply map_lookup_filter_Some. split; [exact Hm | exact Hd].
    + apply map_lookup_filter_None. left. exact Hm.
  - rewrite after_S, lookup_insert_ne; [exact IH | congruence].
Qed.

Lemma after_this_device n m k t :
  after n m !! (k, keyboard_id w) = Some t <->
  exists i, (i < n)%nat /\ code i = k /\ mapping_targets i = t
            /\ forall j, (i < j < n)%nat -> code j <> k.
Proof.
  revert t. induction n as [| n IH]; intros t.
  - unfold after, KeyMap.apply_edits, KeyMap.clear; cbn. split.
    + intros H. apply map_lookup_filter_Some in H. cbn in H.
      destruct H as [_ H]. congruence.
    + intros (i & Hi & _). lia.
  - rewrite after_S. destruct (decide (code n = k)) as [Heq | Hne].
    + rewrite Heq, lookup_insert_eq. split.
      * intros [= <-]. exists n. repeat split; [lia | exact Heq | intros j Hj; lia].
      * intros (i & Hi & Hk & Ht & Hlast).
        destruct (decide (i = n)) as [-> | Hin]; [congruence |].
        exfalso. apply (Hlast n); [lia | exact Heq].
    + rewrite lookup_insert_ne by congruence. rewrite IH. split.
      * intros (i & Hi & Hk & Ht & Hlast). exists i.
        repeat split; [lia | exact Hk | exact Ht |].
        intros j Hj. destruct (decide (j = n)) as [-> | Hjn]; [exact Hne |].
        apply Hlast. lia.
      * intros (i & Hi & Hk & Ht & Hlast).
        destruct (decide (i = n)) as [-> | Hin]; [congruence |].
        exists i. repeat split; [lia | exact Hk | exact Ht |].
        intros j Hj. apply Hlast. lia.
Qed.

Lemma apply_ReloadSetKeymaps m :
  KeyMap.apply_edits
    (ReloadSetKeymaps NUM_INPUTS All input_mappings mapping_targets w) m
  = after NUM_INPUTS m.
Proof. reflexivity. Qed.
End ReloadFacts.

(** C9: [ReloadSetKeymaps] makes one [ClearKeyMapping] call for the
    keyboard's device id and then one [SetKeyMapping] call per native input,
    in the order of [Settings::NativeInput::All]. With the table operations
    as the design document gives them, the entries of that device afterward
    are the configured ones and nothing else: a key code is bound exactly
    when some input is configured on it, to the target of the last such
    input, whatever the table held before. Entries of other devices are
    kept. *)
Theorem C9_ReloadSetKeymaps_rebuilds {KeyTarget : Type}
    (NUM_INPUTS : nat) (All : nat -> nat) (input_mappings : nat -> Z)
    (mapping_targets : nat -> KeyTarget) (w : GRenderWindow.t)
    (m : gmap HostDeviceKey KeyTarget) :
  let edits := ReloadSetKeymaps NUM_INPUTS All input_mappings mapping_targets w in
  edits =
    KeyMap.ClearKeyMapping (keyboard_id w)
    :: List.map (fun i => KeyMap.SetKeyMapping
                            (input_mappings (All i), keyboard_id w)
                            (mapping_targets i))
                (seq 0 NUM_INPUTS)
  /\ (forall k t,
         KeyMap.apply_edits edits m !! (k, keyboard_id w) = Some t <->
         exists i, (i < NUM_INPUTS)%nat /\ input_mappings (All i) = k
                   /\ mapping_targets i = t
                   /\ forall j, (i < j < NUM_INPUTS)%nat ->
                                input_mappings (All j) <> k)
  /\ (forall k d, d <> keyboard_id w ->
                  KeyMap.apply_edits edits m !! (k, d) = m !! (k, d)).
Proof.
  cbv zeta. split; [reflexivity |]. split.
  - intros k t. rewrite apply_ReloadSetKeymaps. apply after_this_device.
  - intros k d Hd. rewrite apply_ReloadSetKeymaps. apply after_other_device.
    exact Hd.
Qed.

Lemma C9_ReloadSetKeymaps_rebuilds_witness :
  KeyMap.apply_edits
    (ReloadSetKeymaps 3 Samples.cfg_All Samples.cfg_input_mappings
                      Samples.cfg_mapping_targets Samples.window)
    (<[(83, 0) := 99%nat]> (<[(70, 1) := 5%nat]> ∅)) !! (83, 0) = Some 12%nat
  /\ KeyMap.apply_edits
    (ReloadSetKeymaps 3 Samples.cfg_All Samples.cfg_input_mappings
                      Samples.cfg_mapping_targets Samples.window)
    (<[(83, 0) := 99%nat]> (<[(70, 1) := 5%nat]> ∅)) !! (70, 1) = Some 5%nat.
Proof.
  pose proof (C9_ReloadSetKeymaps_rebuilds 3 Samples.cfg_All
                Samples.cfg_input_mappings Samples.cfg_mapping_targets
                Samples.window (<[(83, 0) := 99%nat]> (<[(70, 1) := 5%nat]> ∅)))
    as (_ & Hthis & Hother).
  split.
  - apply Hthis. exists 2%nat.
    split; [lia |]. split; [reflexivity |]. split; [reflexivity |].
    intros j Hj. lia.
  - rewrite Hother; [reflexivity |]. cbn. lia.
Defined.

(** ** The scheduler loop *)

Import EmuThread.

Section RunFacts.
Variable cfg : BuildConfig.
Variable render_window : GRenderWindow.t.
Variable this : nat.

Local Abbreviation exec := (EmuThread.exec cfg render_window this).
Local Abbreviation step := (EmuThread.step cfg render_window this).
Local Abbreviation sched_step := (EmuThread.sched_step cfg render_window this).

Lemma exec_cons a sched c :
  exec c (a :: sched) =
  (fst (exec (fst (step a c)) sched),
   snd (step a c) ++ snd (exec (fst (step a c)) sched)).
Proof.
  cbn [EmuThread.exec]. destruct (step a c) as [c1 e1]. cbn [fst snd].
  destruct (exec c1 sched) as [c2 e2]. reflexivity.
Qed.

Lemma exec_app s1 s2 c :
  exec c (s1 ++ s2) =
  (fst (exec (fst (exec c s1)) s2),
   snd (exec c s1) ++ snd (exec (fst (exec c s1)) s2)).
Proof.
  revert c. induction s1 as [| a s1 IH]; intros c.
  - cbn. destruct (exec c s2); reflexivity.
  - rewrite <- app_comm_cons, !exec_cons, IH. cbn [fst snd].
    rewrite app_assoc. reflexivity.
Qed.

(** An invariant of configuration and trace so far that every step keeps
    holds after every interleaving. *)
Lemma exec_invariant (I : Config -> list Event -> Prop) :
  (forall c tr a, I c tr -> I (fst (step a c)) (tr ++ snd (step a c))) ->
  forall sched c tr,
    I c tr -> I (fst (exec c sched)) (tr ++ snd (exec c sched)).
Proof.
  intros Hstep sched. induction sched as [| a sched IH]; intros c tr HI.
  - cbn. rewrite app_nil_r. exact HI.
  - rewrite exec_cons. cbn [fst snd]. rewrite app_assoc.
    apply IH, Hstep, HI.
Qed.

(** Requests move no thread that is not asleep. *)
Lemma exec_requests rs c :
  pc c <> L60_blocked ->
  exec c (List.map Req rs) =
  (goto_flags (pc c) (requests_flags rs (flags c)) c, []).
Proof.
  revert c. induction rs as [| r rs IH]; intros c Hpc.
  - destruct c; reflexivity.
  - cbn [List.map]. rewrite exec_cons. cbn [EmuThread.step fst snd].
    assert (Hreq : request_step r c
                   = goto_flags (pc c) (request_flags r (flags c)) c).
    { unfold request_step, notify. cbn. destruct (pc c); congruence. }
    rewrite Hreq, IH by exact Hpc. reflexivity.
Qed.

Lemma count_app {A} (p : A -> bool) l1 l2 :
  count p (l1 ++ l2) = (count p l1 + count p l2)%nat.
Proof. unfold count. rewrite List.filter_app, length_app. reflexivity. Qed.

(** No request clears the stop flag. *)
Lemma request_flags_stop r f :
  stop_run f = true -> stop_run (request_flags r f) = true.
Proof. destruct r; cbn; auto. Qed.


Lemma count_nil {A} (p : A -> bool) : count p [] = 0%nat.
Proof. reflexivity. Qed.

Lemma count_Shutdown_le tr :
  (count is_Shutdown tr <= count is_exit_event tr)%nat.
Proof.
  induction tr as [| e tr IH]; [reflexivity |].
  change (e :: tr) with ([e] ++ tr). rewrite !count_app.
  assert (count is_Shutdown [e] <= count is_exit_event [e])%nat
    by (destruct e; cbn; lia).
  lia.
Qed.

Lemma exit_progress_step c tr a :
  exit_progress cfg render_window this c tr ->
  exit_progress cfg render_window this (fst (step a c)) (tr ++ snd (step a c)).
Proof.
  destruct c as [p wa [es rn st]]. unfold exit_progress.
  destruct a as [| r |]; cbn [EmuThread.step fst snd].
  - destruct p; cbn; intros H;
      repeat match goal with
             | |- context [if ?b then _ else _] => destruct b; cbn
             end;
      rewrite ?app_nil_r, ?count_app; cbn;
      try exact H; try lia.
    + exists tr. split; [reflexivity | exact H].
    + destruct H as (before & -> & Hb). exists before.
      split; [| exact Hb]. rewrite <- app_assoc. reflexivity.
    + destruct H as (before & -> & Hb). exists before.
      split; [| exact Hb]. rewrite <- app_assoc. reflexivity.
  - rewrite app_nil_r. unfold request_step, notify.
    destruct p; cbn; intros H; exact H.
  - rewrite app_nil_r. unfold notify. destruct p; cbn; intros H; exact H.
Qed.

Lemma exit_progress_exec f sched :
  exit_progress cfg render_window this
    (fst (exec (entry f) sched)) (snd (exec (entry f) sched)).
Proof.
  apply (exec_invariant (exit_progress cfg render_window this)
           exit_progress_step sched (entry f) []).
  reflexivity.
Qed.

Lemma exec_cons_eq a sched c c1 e1 c2 e2 :
  step a c = (c1, e1) -> exec c1 sched = (c2, e2) ->
  exec c (a :: sched) = (c2, e1 ++ e2).
Proof. intros H1 H2. rewrite exec_cons, H1. cbn [fst snd]. rewrite H2. reflexivity. Qed.

Lemma exec_app_eq s1 s2 c c1 e1 c2 e2 :
  exec c s1 = (c1, e1) -> exec c1 s2 = (c2, e2) ->
  exec c (s1 ++ s2) = (c2, e1 ++ e2).
Proof. intros H1 H2. rewrite exec_app, H1. cbn [fst snd]. rewrite H2. reflexivity. Qed.

Lemma exec_one a c : exec c [a] = (fst (step a c), snd (step a c)).
Proof. rewrite exec_cons. cbn. rewrite app_nil_r. reflexivity. Qed.

(** Once the stop flag has been read as set at the loop head, three
    steps of the thread finish [run], whatever is requested meanwhile. *)
Lemma exit_run c r1 r2 :
  pc c = L38 -> stop_run (flags c) = true ->
  exec c (Sched :: List.map Req r1 ++ Sched :: List.map Req r2 ++ [Sched])
  = (goto_flags Finished (requests_flags r2 (requests_flags r1 (flags c))) c,
     Shutdown :: List.map GL (moveContext cfg render_window (self this))).
Proof.
  destruct c as [p wa f]. cbn [pc flags]. intros -> Hstop.
  erewrite exec_cons_eq; cycle 1.
  { cbn. unfold EmuThread.sched_step. cbn [pc flags]. rewrite Hstop.
    reflexivity. }
  { eapply exec_app_eq; [apply exec_requests; cbn; discriminate |].
    eapply exec_cons_eq; [reflexivity |].
    eapply exec_app_eq; [apply exec_requests; cbn; discriminate |].
    apply exec_one. }
  reflexivity.
Qed.

(** Whatever is requested before line 32 has run, the thread reaches the
    loop body with the stop flag cleared. *)
Lemma enter_loop f r1 r2 :
  exec (entry f)
       (List.map Req r1 ++ Sched :: List.map Req r2 ++ [Sched; Sched; Sched])
  = ({| pc := L39; was_active := false;
        flags := set_stop_run false (requests_flags r2 (requests_flags r1 f)) |},
     [GL (makeCurrent (self this))]).
Proof.
  erewrite exec_app_eq; cycle 1.
  { apply exec_requests. cbn. discriminate. }
  { eapply exec_cons_eq; [reflexivity |].
    eapply exec_app_eq; [apply exec_requests; cbn; discriminate |].
    reflexivity. }
  reflexivity.
Qed.

(** *** Notifications *)

Lemma notification_due_step c nl a :
  notification_due c nl = true ->
  exists nl',
    notification_due (fst (step a c)) nl' = true
    /\ forall rest, alternates nl' rest = true ->
                    alternates nl (snd (step a c) ++ rest) = true.
Proof.
  destruct c as [p wa [es rn st]].
  destruct a as [| r |]; cbn [EmuThread.step fst snd].
  - unfold EmuThread.sched_step, moveContext.
    destruct (qt_version_gt_5_0_0 cfg);
    destruct p, wa, es, rn, st, nl; cbn; intros H; try discriminate H;
      first [ exists true; split; [reflexivity | intros rest Hr; exact Hr]
            | exists false; split; [reflexivity | intros rest Hr; exact Hr] ].
  - unfold request_step, notify.
    destruct r as [b | |]; [destruct b | |];
      destruct p, wa, es, rn, st, nl; cbn; intros H; try discriminate H;
      first [ exists true; split; [reflexivity | intros rest Hr; exact Hr]
            | exists false; split; [reflexivity | intros rest Hr; exact Hr] ].
  - unfold notify.
    destruct p, wa, es, rn, st, nl; cbn; intros H; try discriminate H;
      first [ exists true; split; [reflexivity | intros rest Hr; exact Hr]
            | exists false; split; [reflexivity | intros rest Hr; exact Hr] ].
Qed.

(** From a configuration that owes the notification [nl], the
    notifications of every interleaving alternate, [nl] first. *)
Lemma notifications_alternate_from sched :
  forall c nl,
    notification_due c nl = true ->
    alternates nl (snd (exec c sched)) = true.
Proof.
  induction sched as [| a sched IH]; intros c nl Hdue; [reflexivity |].
  rewrite exec_cons. cbn [snd].
  destruct (notification_due_step c nl a Hdue) as (nl' & Hdue' & Hrest).
  apply Hrest, IH, Hdue'.
Qed.

(** In every interleaving of requests with the thread running [run], the
    two notifications alternate, and the first is [DebugModeLeft]. *)
Lemma notifications_alternate f sched :
  alternates true (snd (exec (entry f) sched)) = true.
Proof. apply notifications_alternate_from. reflexivity. Qed.

(** *** Single steps *)

Lemma steps_owed_step c a :
  step_flag_held c = true ->
  step_flag_held (fst (step a c)) = true
  /\ (count is_SingleStep (snd (step a c)) + steps_owed (fst (step a c))
      <= steps_owed c + (if is_ExecStep a then 1 else 0))%nat.
Proof.
  destruct c as [p wa [es rn st]].
  destruct a as [| r |]; cbn [EmuThread.step fst snd].
  - unfold EmuThread.sched_step, moveContext.
    destruct (qt_version_gt_5_0_0 cfg);
    destruct p, wa, es, rn, st; cbn; intros H; try discriminate H;
      split; solve [reflexivity | lia].
  - unfold request_step, notify.
    destruct r as [b | |]; [destruct b | |];
      destruct p, wa, es, rn, st; cbn; intros H; try discriminate H;
      split; solve [reflexivity | lia].
  - unfold notify.
    destruct p, wa, es, rn, st; cbn; intros H; try discriminate H;
      split; solve [reflexivity | lia].
Qed.

Lemma steps_owed_exec sched :
  forall c,
    step_flag_held c = true ->
    (count is_SingleStep (snd (exec c sched)) + steps_owed (fst (exec c sched))
     <= steps_owed c + count is_ExecStep sched)%nat.
Proof.
  induction sched as [| a sched IH]; intros c Hheld.
  - cbn. lia.
  - rewrite exec_cons. cbn [fst snd]. rewrite count_app.
    destruct (steps_owed_step c a Hheld) as [Hheld' Hle].
    specialize (IH _ Hheld').
    change (a :: sched) with ([a] ++ sched).
    rewrite (count_app is_ExecStep).
    assert (count is_ExecStep [a] = if is_ExecStep a then 1 else 0)%nat
      by (unfold count; cbn; destruct (is_ExecStep a); reflexivity).
    lia.
Qed.

(** *** The wait *)

Lemma wait_decides c :
  pc c = L60 ->
  sched_step c = if wait_pred (flags c) then (goto L38 c, [])
                 else (goto L60_blocked c, [cv_block]).
Proof. intros H. unfold EmuThread.sched_step. rewrite H. reflexivity. Qed.

Lemma blocked_inert c : pc c = L60_blocked -> sched_step c = (c, []).
Proof. intros H. unfold EmuThread.sched_step. rewrite H. reflexivity. Qed.

Lemma wake_rechecks c :
  pc c = L60_blocked ->
  pc (fst (step SpuriousWake c)) = L60
  /\ forall r, pc (fst (step (Req r) c)) = L60
               /\ flags (fst (step (Req r) c)) = request_flags r (flags c).
Proof.
  intros H. cbn. unfold request_step, notify. cbn. rewrite H.
  split; [reflexivity |]. intros r. split; reflexivity.
Qed.

(** The thread falls asleep at line 60 and nowhere else. *)
Lemma sole_block c a :
  pc c <> L60_blocked ->
  pc (fst (step a c)) = L60_blocked \/ In cv_block (snd (step a c)) ->
  a = Sched /\ pc c = L60 /\ wait_pred (flags c) = false.
Proof.
  destruct c as [p wa [es rn st]]. cbn [pc flags]. intros Hp H.
  destruct a as [| r |]; cbn [EmuThread.step fst snd] in H.
  - unfold EmuThread.sched_step, moveContext in H.
    destruct (qt_version_gt_5_0_0 cfg);
    destruct p, wa, es, rn, st; cbn in H;
      try congruence;
      try (destruct H as [H | H]; [discriminate H |];
           repeat (destruct H as [H | H]; [discriminate H |]); destruct H);
      repeat split.
  - exfalso. unfold request_step, notify in H.
    destruct p; cbn in H; destruct H as [H | []]; congruence.
  - exfalso. unfold notify in H.
    destruct p; cbn in H; destruct H as [H | []]; congruence.
Qed.

(** With nothing requested, the thread at the loop head is asleep after
    four steps and stays so: one [cv_block], no other event. *)
Lemma idle_blocks c n :
  pc c = L38 -> wait_pred (flags c) = false ->
  exec c (repeat Sched (4 + n)) = (goto L60_blocked c, [cv_block]).
Proof.
  destruct c as [p wa [es rn st]]. cbn [pc flags]. intros -> Hw.
  unfold wait_pred in Hw. cbn in Hw.
  destruct rn, es, st; try discriminate Hw.
  induction n as [| n IH]; [reflexivity |].
  replace (4 + S n)%nat with ((4 + n) + 1)%nat by lia.
  rewrite repeat_app. erewrite exec_app_eq; [| exact IH | reflexivity].
  reflexivity.
Qed.

(** Without a request the thread does not leave the wait, and it goes
    back to sleep at most once per wake. *)
Lemma stays_waiting sched :
  forall c,
    Forall (fun a => is_request a = false) sched ->
    in_wait (pc c) = true -> wait_pred (flags c) = false ->
    in_wait (pc (fst (exec c sched))) = true
    /\ flags (fst (exec c sched)) = flags c
    /\ Forall (fun e => e = cv_block) (snd (exec c sched))
    /\ (length (snd (exec c sched)) + (if pc (fst (exec c sched)) is L60 then 1 else 0)
        <= (if pc c is L60 then 1 else 0) + count is_wake sched)%nat.
Proof.
  induction sched as [| a sched IH]; intros c Hsched Hin Hw.
  - cbn. repeat split; [exact Hin | constructor | lia].
  - inversion Hsched as [| a' s' Ha Hrest]; subst.
    rewrite exec_cons. cbn [fst snd].
    change (a :: sched) with ([a] ++ sched). rewrite (count_app is_wake).
    assert (Hstep :
      in_wait (pc (fst (step a c))) = true
      /\ flags (fst (step a c)) = flags c
      /\ Forall (fun e => e = cv_block) (snd (step a c))
      /\ (length (snd (step a c)) + (if pc (fst (step a c)) is L60 then 1 else 0)
          <= (if pc c is L60 then 1 else 0) + count is_wake [a])%nat).
    { destruct c as [p wa f]. cbn [pc flags] in *.
      destruct a as [| r |]; [| discriminate Ha |].
      - cbn [EmuThread.step]. unfold EmuThread.sched_step. cbn [pc flags].
        destruct p; try discriminate Hin; [rewrite Hw |]; cbn;
          repeat split; repeat constructor.
      - cbn [EmuThread.step]. unfold notify. cbn [pc].
        destruct p; try discriminate Hin; cbn;
          repeat split; repeat constructor. }
    destruct Hstep as (Hin1 & Hf1 & Hall1 & Hlen1).
    destruct (IH (fst (step a c)) Hrest Hin1) as (Hin2 & Hf2 & Hall2 & Hlen2).
    { rewrite Hf1. exact Hw. }
    repeat split.
    + exact Hin2.
    + rewrite Hf2. exact Hf1.
    + apply Forall_app. split; assumption.
    + rewrite length_app. lia.
Qed.

Lemma requests_flags_ExecStep k f :
  exec_step f = true -> requests_flags (repeat ExecStep k) f = f.
Proof.
  intros H. induction k as [| k IH]; [reflexivity |].
  cbn. unfold requests_flags in IH.
  replace (set_exec_step true f) with f; [exact IH |].
  destruct f as [es rn st]. cbn in H. subst. reflexivity.
Qed.

(** One or more step requests reaching the sleeping thread are served by
    one [SingleStep], after which the step flag is clear and the thread is
    back at the loop head. *)
Lemma step_request_served c k :
  in_wait (pc c) = true -> wait_pred (flags c) = false ->
  exec c (List.map Req (repeat ExecStep (S k)) ++ repeat Sched 10)
  = ({| pc := L38; was_active := false; flags := flags c |},
     (if was_active c then [] else [DebugModeLeft])
     ++ [SingleStep; DebugModeEntered; yieldCurrentThread]).
Proof.
  destruct c as [p wa [es rn st]]. cbn [pc flags was_active]. intros Hp Hw.
  unfold wait_pred in Hw. cbn in Hw.
  destruct rn, es, st; try discriminate Hw.
  destruct p; try discriminate Hp.
  all: destruct wa.
  all: eapply eq_trans;
    [ eapply exec_app_eq;
      [ cbn [repeat List.map]; eapply exec_cons_eq; [reflexivity |];
        apply exec_requests; cbn; discriminate
      | cbn [pc flags goto_flags fst request_step notify];
        rewrite requests_flags_ExecStep by reflexivity;
        reflexivity ]
    | reflexivity ].
Qed.

(** The thread writes the step flag at line 52 only, clearing it, and
    goes from there to the [SingleStep] call of line 53, which is the only
    one. *)
Lemma step_flag_cleared_before_SingleStep c :
  (exec_step (flags (fst (sched_step c))) <> exec_step (flags c) ->
   pc c = L52 /\ exec_step (flags (fst (sched_step c))) = false)
  /\ (pc c = L52 -> pc (fst (sched_step c)) = L53
                    /\ exec_step (flags (fst (sched_step c))) = false
                    /\ snd (sched_step c) = [])
  /\ (pc c = L53 -> snd (sched_step c) = [SingleStep])
  /\ (In SingleStep (snd (sched_step c)) -> pc c = L53)
  /\ (pc (fst (sched_step c)) = L53 -> pc c = L52).
Proof.
  destruct c as [p wa [es rn st]]. unfold EmuThread.sched_step, moveContext.
  cbn [pc flags was_active].
  split; [| split; [| split; [| split]]].
  - destruct (qt_version_gt_5_0_0 cfg), p, wa, es, rn, st; cbn; intros H;
      try congruence; split; reflexivity.
  - intros ->. cbn. repeat split.
  - intros ->. reflexivity.
  - destruct (qt_version_gt_5_0_0 cfg), p, wa, es, rn, st; cbn; intros H;
      try reflexivity;
      repeat (destruct H as [H | H]; [discriminate H |]); destruct H.
  - destruct p, wa, es, rn, st; cbn; intros H;
      try reflexivity; discriminate H.
Qed.

End RunFacts.

(** C3: [DebugModeEntered] is not emitted on every change from active to
    idle. On the interleaving [Samples.pause_between_iterations], where
    [SetRunning(false)] lands after an iteration of the run branch and
    before the test of line 39 of the next, the thread executes, goes to
    sleep in the wait and executes again, and the only notification is the first [DebugModeLeft]: going
    idle emits no [DebugModeEntered] and resuming no [DebugModeLeft], where
    the run branch emits both when it sees the same change at line 45.
    (The alternation of the two notifications holds on every interleaving:
    [notifications_alternate].) *)
Theorem C3_pause_without_DebugModeEntered cfg render_window this :
  snd (EmuThread.exec cfg render_window this (entry constructed)
         Samples.pause_between_iterations)
  = [GL (makeCurrent (emu_qthread this)); DebugModeLeft; RunLoop; cv_block;
     RunLoop]
  /\ transitions true false
       (snd (EmuThread.exec cfg render_window this (entry constructed)
               Samples.pause_between_iterations)) = 1%nat
  /\ count is_DebugModeEntered
       (snd (EmuThread.exec cfg render_window this (entry constructed)
               Samples.pause_between_iterations)) = 0%nat
  /\ transitions false false
       (snd (EmuThread.exec cfg render_window this (entry constructed)
               Samples.pause_between_iterations)) = 2%nat
  /\ count is_DebugModeLeft
       (snd (EmuThread.exec cfg render_window this (entry constructed)
               Samples.pause_between_iterations)) = 1%nat.
Proof. repeat split. Qed.

(** C4: the thread writes the step flag at line 52 only, clearing it,
    and its next step is the one [SingleStep] call of the loop; one or more
    step requests that reach the idle thread before it looks are served
    by exactly one [SingleStep], after which the flag is clear; and in no
    interleaving are there more [SingleStep] calls than step requests. *)
Theorem C4_single_step_per_request cfg render_window this :
  (forall c,
      (exec_step (flags (fst (EmuThread.sched_step cfg render_window this c)))
         <> exec_step (flags c) ->
       pc c = L52
       /\ exec_step (flags (fst (EmuThread.sched_step cfg render_window this c)))
          = false)
      /\ (pc c = L52 ->
          pc (fst (EmuThread.sched_step cfg render_window this c)) = L53
          /\ exec_step (flags (fst (EmuThread.sched_step cfg render_window this c)))
             = false
          /\ snd (EmuThread.sched_step cfg render_window this c) = [])
      /\ (pc c = L53 ->
          snd (EmuThread.sched_step cfg render_window this c) = [SingleStep])
      /\ (In SingleStep (snd (EmuThread.sched_step cfg render_window this c)) ->
          pc c = L53)
      /\ (pc (fst (EmuThread.sched_step cfg render_window this c)) = L53 ->
          pc c = L52))
  /\ (forall c k,
         in_wait (pc c) = true -> wait_pred (flags c) = false ->
         EmuThread.exec cfg render_window this c
           (List.map Req (repeat ExecStep (S k)) ++ repeat Sched 10)
         = ({| pc := L38; was_active := false; flags := flags c |},
            (if was_active c then [] else [DebugModeLeft])
            ++ [SingleStep; DebugModeEntered; yieldCurrentThread]))
  /\ (forall f sched,
         exec_step f = false ->
         (count is_SingleStep
            (snd (EmuThread.exec cfg render_window this (entry f) sched))
          <= count is_ExecStep sched)%nat).
Proof.
  split; [apply step_flag_cleared_before_SingleStep |].
  split; [apply step_request_served |].
  intros f sched Hf.
  pose proof (steps_owed_exec cfg render_window this sched (entry f) eq_refl) as H.
  unfold steps_owed at 2 in H. cbn [entry pc flags] in H. rewrite Hf in H.
  cbn in H. lia.
Qed.

Lemma C4_single_step_per_request_witness :
  EmuThread.exec Samples.qt5_debug Samples.window 1 Samples.asleep
    (List.map Req (repeat ExecStep 3) ++ repeat Sched 10)
  = ({| pc := L38; was_active := false; flags := constructed |},
     [DebugModeLeft; SingleStep; DebugModeEntered; yieldCurrentThread])
  /\ (count is_SingleStep
        (snd (EmuThread.exec Samples.qt5_debug Samples.window 1
                (entry constructed)
                [Req ExecStep; Sched; Sched; Sched; Req ExecStep; Sched; Sched;
                 Sched; Sched; Sched; Sched]))
      <= 2)%nat.
Proof.
  pose proof (C4_single_step_per_request Samples.qt5_debug Samples.window 1)
    as (_ & Hserved & Hbound).
  split.
  - exact (Hserved Samples.asleep 2%nat eq_refl eq_refl).
  - exact (Hbound constructed
             [Req ExecStep; Sched; Sched; Sched; Req ExecStep; Sched; Sched;
              Sched; Sched; Sched; Sched] eq_refl).
Defined.

(** C7: at line 60 the thread goes to sleep exactly when none of
    [running], [exec_step] and [stop_run] is set, and goes on to the loop
    head otherwise; asleep it does nothing by itself, and every wake, a
    request's notification or a spurious one, sends it back to evaluating
    the predicate; no other step of [run] puts it to sleep; with nothing
    requested the loop reaches the sleep in four steps and makes no further
    move; and without a request it never leaves the wait, going back to
    sleep at most once per wake. *)
Theorem C7_idle_wait cfg render_window this :
  (forall f, wait_pred f = false <->
             running f = false /\ exec_step f = false /\ stop_run f = false)
  /\ (forall c, pc c = L60 ->
        (wait_pred (flags c) = false ->
         EmuThread.sched_step cfg render_window this c
         = (goto L60_blocked c, [cv_block]))
        /\ (wait_pred (flags c) = true ->
            EmuThread.sched_step cfg render_window this c = (goto L38 c, [])))
  /\ (forall c, pc c = L60_blocked ->
        EmuThread.sched_step cfg render_window this c = (c, [])
        /\ pc (fst (EmuThread.step cfg render_window this SpuriousWake c)) = L60
        /\ forall r,
            pc (fst (EmuThread.step cfg render_window this (Req r) c)) = L60)
  /\ (forall c a,
        pc c <> L60_blocked ->
        pc (fst (EmuThread.step cfg render_window this a c)) = L60_blocked
        \/ In cv_block (snd (EmuThread.step cfg render_window this a c)) ->
        a = Sched /\ pc c = L60 /\ wait_pred (flags c) = false)
  /\ (forall c n,
        pc c = L38 -> wait_pred (flags c) = false ->
        EmuThread.exec cfg render_window this c (repeat Sched (4 + n))
        = (goto L60_blocked c, [cv_block]))
  /\ (forall c sched,
        Forall (fun a => is_request a = false) sched ->
        in_wait (pc c) = true -> wait_pred (flags c) = false ->
        in_wait (pc (fst (EmuThread.exec cfg render_window this c sched))) = true
        /\ Forall (fun e => e = cv_block)
                  (snd (EmuThread.exec cfg render_window this c sched))
        /\ (length (snd (EmuThread.exec cfg render_window this c sched))
            <= 1 + count is_wake sched)%nat).
Proof.
  split.
  { intros [es rn st]. unfold wait_pred. cbn.
    destruct rn, es, st; cbn; split; intros H;
      try discriminate H; try (destruct H as (? & ? & ?); discriminate);
      repeat split. }
  split.
  { intros c Hpc. rewrite (wait_decides _ _ _ _ Hpc).
    split; intros ->; reflexivity. }
  split.
  { intros c Hpc. split; [apply blocked_inert, Hpc |].
    destruct (wake_rechecks cfg render_window this c Hpc) as [Hw Hr].
    split; [exact Hw |]. intros r. apply Hr. }
  split; [apply sole_block |].
  split; [apply idle_blocks |].
  intros c sched Hs Hin Hw.
  destruct (stays_waiting cfg render_window this sched c Hs Hin Hw)
    as (H1 & _ & H3 & H4).
  split; [exact H1 |]. split; [exact H3 |].
  destruct (pc c), (pc (fst (EmuThread.exec cfg render_window this c sched)));
    lia.
Qed.

Lemma C7_idle_wait_witness :
  EmuThread.sched_step Samples.qt5_debug Samples.window 1 Samples.at_wait
  = (Samples.asleep, [cv_block])
  /\ EmuThread.sched_step Samples.qt5_debug Samples.window 1 Samples.asleep
     = (Samples.asleep, [])
  /\ EmuThread.exec Samples.qt5_debug Samples.window 1
       (goto L38 Samples.asleep) (repeat Sched 9)
     = (Samples.asleep, [cv_block])
  /\ (length (snd (EmuThread.exec Samples.qt5_debug Samples.window 1
                     Samples.asleep
                     [Sched; SpuriousWake; Sched; Sched; SpuriousWake; Sched]))
      <= 3)%nat.
Proof.
  pose proof (C7_idle_wait Samples.qt5_debug Samples.window 1)
    as (_ & Hwait & Hasleep & _ & Hidle & Hstay).
  split; [exact (proj1 (Hwait Samples.at_wait eq_refl) eq_refl) |].
  split; [exact (proj1 (Hasleep Samples.asleep eq_refl)) |].
  split; [exact (Hidle (goto L38 Samples.asleep) 5%nat eq_refl eq_refl) |].
  refine (proj2 (proj2 (Hstay Samples.asleep
            [Sched; SpuriousWake; Sched; Sched; SpuriousWake; Sched]
            _ eq_refl eq_refl))).
  repeat constructor.
Defined.

(** C8, as stated, fails: in a build whose Qt is not above 5.0.0 the
    session [Samples.session] ends with [Shutdown] and the release of the
    context, and the context is not moved to the presentation thread. *)
Lemma C8_migration_on_every_exit_refuted :
  EmuThread.exec Samples.qt4_debug Samples.window 1 (entry constructed)
    Samples.session
  = ({| pc := Finished; was_active := true;
        flags := set_stop_run true (set_running true constructed) |},
     [GL (makeCurrent (emu_qthread 1)); DebugModeLeft; RunLoop; Shutdown;
      GL (doneCurrent (emu_qthread 1))])
  /\ ~ (forall cfg render_window this f sched,
          pc (fst (EmuThread.exec cfg render_window this (entry f) sched))
          = Finished ->
          exists before,
            snd (EmuThread.exec cfg render_window this (entry f) sched)
            = before
              ++ [Shutdown; GL (doneCurrent (emu_qthread this));
                  GL (moveToThread (emu_qthread this) qApp_thread)]).
Proof.
  split; [reflexivity |].
  intros H.
  destruct (H Samples.qt4_debug Samples.window 1%nat constructed
              Samples.session eq_refl) as (before & Heq).
  cbn in Heq.
  destruct before as [| e1 [| e2 [| e3 [| e4 [| e5 [| e6 before]]]]]];
    cbn in Heq; discriminate Heq.
Qed.

(** C8, amended: in every interleaving, [Shutdown] is called at most
    once and neither it nor a release or move of the context happens inside
    the loop; when [run] has finished, the trace ends with the one
    [Shutdown] call, then [doneCurrent] on the emulation thread, then, in
    a build with Qt above 5.0.0, [moveToThread] to the presentation thread;
    in any other build nothing is moved. Once the loop head has read the
    stop flag as set, the next three steps of the thread are these and
    nothing that is requested meanwhile changes them. *)
Theorem C8_exit_shutdown_then_context cfg render_window this :
  (forall f sched,
      (count is_Shutdown
         (snd (EmuThread.exec cfg render_window this (entry f) sched)) <= 1)%nat
      /\ (left_loop (pc (fst (EmuThread.exec cfg render_window this
                                (entry f) sched))) = false ->
          count is_exit_event
            (snd (EmuThread.exec cfg render_window this (entry f) sched))
          = 0%nat)
      /\ (pc (fst (EmuThread.exec cfg render_window this (entry f) sched))
          = Finished ->
          exists before,
            snd (EmuThread.exec cfg render_window this (entry f) sched)
            = before
              ++ [Shutdown; GL (doneCurrent (emu_qthread this))]
              ++ (if qt_version_gt_5_0_0 cfg
                  then [GL (moveToThread (emu_qthread this) qApp_thread)]
                  else [])
            /\ count is_exit_event before = 0%nat))
  /\ (forall c r1 r2,
         pc c = L38 -> stop_run (flags c) = true ->
         EmuThread.exec cfg render_window this c
           (Sched :: List.map Req r1 ++ Sched :: List.map Req r2 ++ [Sched])
         = (goto_flags Finished
              (requests_flags r2 (requests_flags r1 (flags c))) c,
            [Shutdown; GL (doneCurrent (emu_qthread this))]
            ++ (if qt_version_gt_5_0_0 cfg
                then [GL (moveToThread (emu_qthread this) qApp_thread)]
                else []))).
Proof.
  split.
  - intros f sched.
    pose proof (exit_progress_exec cfg render_window this f sched) as H.
    pose proof (count_Shutdown_le
                  (snd (EmuThread.exec cfg render_window this (entry f) sched)))
      as Hle.
    unfold exit_progress in H.
    destruct (pc (fst (EmuThread.exec cfg render_window this (entry f) sched)))
      eqn:Hpc; cbn [left_loop];
      (split; [| split; [intros Hl | intros Hf]]);
      try discriminate; try exact H; try lia.
    + destruct H as (before & -> & Hb).
      pose proof (count_Shutdown_le before). rewrite count_app. cbn. lia.
    + destruct H as (before & -> & Hb).
      pose proof (count_Shutdown_le before). rewrite count_app.
      unfold moveContext. destruct (qt_version_gt_5_0_0 cfg); cbn; lia.
    + destruct H as (before & -> & Hb). exists before. split; [| exact Hb].
      unfold moveContext. destruct (qt_version_gt_5_0_0 cfg); reflexivity.
  - intros c r1 r2 Hpc Hstop.
    rewrite (exit_run cfg render_window this c r1 r2 Hpc Hstop).
    unfold moveContext. destruct (qt_version_gt_5_0_0 cfg); reflexivity.
Qed.

Lemma C8_exit_shutdown_then_context_witness :
  (exists before,
      snd (EmuThread.exec Samples.qt5_debug Samples.window 1
             (entry constructed) Samples.session)
      = before
        ++ [Shutdown; GL (doneCurrent (emu_qthread 1))]
        ++ [GL (moveToThread (emu_qthread 1) qApp_thread)]
      /\ count is_exit_event before = 0%nat)
  /\ (exists before,
      snd (EmuThread.exec Samples.qt4_debug Samples.window 1
             (entry constructed) Samples.session)
      = before ++ [Shutdown; GL (doneCurrent (emu_qthread 1))] ++ []
      /\ count is_exit_event before = 0%nat)
  /\ EmuThread.exec Samples.qt5_debug Samples.window 1 Samples.stopping
       [Sched; Req (SetRunning false); Sched; Sched]
     = (goto_flags Finished
          (set_running false (set_stop_run true constructed)) Samples.stopping,
        [Shutdown; GL (doneCurrent (emu_qthread 1));
         GL (moveToThread (emu_qthread 1) qApp_thread)]).
Proof.
  split; [| split].
  - exact (proj2 (proj2 (proj1 (C8_exit_shutdown_then_context
             Samples.qt5_debug Samples.window 1)
             constructed Samples.session)) eq_refl).
  - exact (proj2 (proj2 (proj1 (C8_exit_shutdown_then_context
             Samples.qt4_debug Samples.window 1)
             constructed Samples.session)) eq_refl).
  - exact (proj2 (C8_exit_shutdown_then_context Samples.qt5_debug
             Samples.window 1)
             Samples.stopping [SetRunning false] [] eq_refl eq_refl).
Defined.

Lemma requests_flags_keep_stop rs :
  forall f, stop_run f = true -> stop_run (requests_flags rs f) = true.
Proof.
  induction rs as [| r rs IH]; intros f Hf; [exact Hf |].
  cbn. apply IH, request_flags_stop, Hf.
Qed.

Lemma requests_flags_stop_requested rs :
  forall f, In RequestStop rs -> stop_run (requests_flags rs f) = true.
Proof.
  induction rs as [| r rs IH]; intros f Hin; [destruct Hin |].
  cbn. destruct Hin as [-> | Hin].
  - apply requests_flags_keep_stop. reflexivity.
  - apply IH, Hin.
Qed.

(** A stop that lands after the store of line 32 and before the test of
    line 38 keeps the thread out of the loop. *)
Lemma stop_after_reset cfg render_window this f r1 r2 r3 r4 :
  In RequestStop (r3 ++ r4) ->
  EmuThread.exec cfg render_window this (entry f)
    (List.map Req r1 ++ Sched :: List.map Req r2 ++ Sched
       :: List.map Req r3 ++ Sched :: List.map Req r4 ++ [Sched])
  = ({| pc := L65; was_active := false;
        flags := requests_flags r4
                   (requests_flags r3
                      (set_stop_run false
                         (requests_flags r2 (requests_flags r1 f)))) |},
     [GL (makeCurrent (emu_qthread this))]).
Proof.
  intros Hin.
  assert (Hstop : stop_run
            (requests_flags r4
               (requests_flags r3
                  (set_stop_run false
                     (requests_flags r2 (requests_flags r1 f))))) = true).
  { apply in_app_or in Hin. destruct Hin as [Hin | Hin].
    - apply requests_flags_keep_stop, requests_flags_stop_requested, Hin.
    - apply requests_flags_stop_requested, Hin. }
  eapply eq_trans.
  { eapply exec_app_eq; [apply exec_requests; cbn; discriminate |].
    eapply exec_cons_eq; [reflexivity |].
    eapply exec_app_eq; [apply exec_requests; cbn; discriminate |].
    eapply exec_cons_eq; [reflexivity |].
    eapply exec_app_eq; [apply exec_requests; cbn; discriminate |].
    eapply exec_cons_eq; [reflexivity |].
    eapply exec_app_eq; [apply exec_requests; cbn; discriminate |].
    rewrite exec_one. cbn [EmuThread.step]. unfold EmuThread.sched_step.
    cbn [pc flags goto_flags goto goto_active fst snd entry was_active].
    rewrite Hstop. reflexivity. }
  reflexivity.
Qed.

(** C10, as stated, fails: a stop requested after line 32 has run and
    before the first test of line 38, so before the loop begins, is not
    discarded: the thread goes to the exit without entering the loop. *)
Lemma C10_stop_before_loop_discarded_refuted :
  EmuThread.exec Samples.qt5_debug Samples.window 1 (entry constructed)
    [Sched; Sched; Req RequestStop; Sched; Sched]
  = ({| pc := L65; was_active := false;
        flags := set_stop_run true constructed |},
     [GL (makeCurrent (emu_qthread 1))])
  /\ ~ (forall cfg render_window this f r1 r2 r3 r4,
          left_loop
            (pc (fst (EmuThread.exec cfg render_window this (entry f)
                        (List.map Req r1 ++ Sched :: List.map Req r2 ++ Sched
                           :: List.map Req r3 ++ Sched :: List.map Req r4
                           ++ [Sched]))))
          = false).
Proof.
  split; [reflexivity |].
  intros H.
  specialize (H Samples.qt5_debug Samples.window 1%nat constructed
                [] [] [RequestStop] []).
  discriminate H.
Qed.

(** C10, amended: every execution of [run] stores [false] into the stop
    flag at line 32, before the loop: whatever was requested before the
    thread reached line 32, stop requests included, and whatever the flags
    were at entry, the thread passes the loop head into the loop body with
    the stop flag clear, having made only the [makeCurrent] call. A stop
    requested after that store is not discarded: if it lands before the
    first test of line 38, the loop is not entered. (The last part of the
    first half recalls that a stop request does set the flag that line 32
    then clears.) *)
Theorem C10_run_resets_stop_flag cfg render_window this f :
  (forall r1 r2,
      EmuThread.exec cfg render_window this (entry f)
        (List.map Req r1 ++ Sched :: List.map Req r2 ++ [Sched; Sched; Sched])
      = ({| pc := L39; was_active := false;
            flags := set_stop_run false
                       (requests_flags r2 (requests_flags r1 f)) |},
         [GL (makeCurrent (emu_qthread this))])
      /\ stop_run
           (flags (fst (EmuThread.exec cfg render_window this (entry f)
                          (List.map Req r1 ++ Sched :: List.map Req r2
                           ++ [Sched; Sched; Sched]))))
         = false
      /\ left_loop
           (pc (fst (EmuThread.exec cfg render_window this (entry f)
                       (List.map Req r1 ++ Sched :: List.map Req r2
                        ++ [Sched; Sched; Sched]))))
         = false
      /\ stop_run (requests_flags (r1 ++ [RequestStop]) f) = true)
  /\ (forall r1 r2 r3 r4,
         In RequestStop (r3 ++ r4) ->
         EmuThread.exec cfg render_window this (entry f)
           (List.map Req r1 ++ Sched :: List.map Req r2 ++ Sched
              :: List.map Req r3 ++ Sched :: List.map Req r4 ++ [Sched])
         = ({| pc := L65; was_active := false;
               flags := requests_flags r4
                          (requests_flags r3
                             (set_stop_run false
                                (requests_flags r2 (requests_flags r1 f)))) |},
            [GL (makeCurrent (emu_qthread this))])).
Proof.
  split.
  - intros r1 r2. rewrite enter_loop. cbn [fst snd flags pc left_loop].
    repeat split.
    unfold requests_flags. rewrite fold_left_app. reflexivity.
  - intros r1 r2 r3 r4. apply stop_after_reset.
Qed.

Lemma C10_run_resets_stop_flag_witness :
  EmuThread.exec Samples.qt5_debug Samples.window 1 (entry constructed)
    (List.map Req [] ++ Sched :: List.map Req [] ++ Sched
       :: List.map Req [RequestStop] ++ Sched :: List.map Req [] ++ [Sched])
  = ({| pc := L65; was_active := false;
        flags := set_stop_run true constructed |},
     [GL (makeCurrent (emu_qthread 1))]).
Proof.
  exact (proj2 (C10_run_resets_stop_flag Samples.qt5_debug Samples.window 1
                  constructed)
           [] [] [RequestStop] [] (or_introl eq_refl)).
Defined.

(** ** The scheduler loop: further properties *)

Import RunTraces.

Section RunExtras.
Variable cfg : BuildConfig.
Variable render_window : GRenderWindow.t.
Variable this : nat.

Local Abbreviation exec := (EmuThread.exec cfg render_window this).
Local Abbreviation step := (EmuThread.step cfg render_window this).

Lemma machine_guarded_step c nl a :
  notification_due c nl = true ->
  exists nl',
    notification_due (fst (step a c)) nl' = true
    /\ forall rest, machine_guarded nl' rest = true ->
                    machine_guarded nl (snd (step a c) ++ rest) = true.
Proof.
  destruct c as [p wa [es rn st]].
  destruct a as [| r |]; cbn [EmuThread.step fst snd].
  - unfold EmuThread.sched_step, moveContext.
    destruct (qt_version_gt_5_0_0 cfg);
    destruct p, wa, es, rn, st, nl; cbn; intros H; try discriminate H;
      first [ exists true; split; [reflexivity | intros rest Hr; exact Hr]
            | exists false; split; [reflexivity | intros rest Hr; exact Hr] ].
  - unfold request_step, notify.
    destruct r as [b | |]; [destruct b | |];
      destruct p, wa, es, rn, st, nl; cbn; intros H; try discriminate H;
      first [ exists true; split; [reflexivity | intros rest Hr; exact Hr]
            | exists false; split; [reflexivity | intros rest Hr; exact Hr] ].
  - unfold notify.
    destruct p, wa, es, rn, st, nl; cbn; intros H; try discriminate H;
      first [ exists true; split; [reflexivity | intros rest Hr; exact Hr]
            | exists false; split; [reflexivity | intros rest Hr; exact Hr] ].
Qed.

Lemma machine_guarded_from sched :
  forall c nl,
    notification_due c nl = true ->
    machine_guarded nl (snd (exec c sched)) = true.
Proof.
  induction sched as [| a sched IH]; intros c nl Hdue; [reflexivity |].
  rewrite exec_cons. cbn [snd].
  destruct (machine_guarded_step c nl a Hdue) as (nl' & Hdue' & Hrest).
  apply Hrest, IH, Hdue'.
Qed.

(** X2: in every interleaving the machine executes ([RunLoop],
    [SingleStep]) only after a [DebugModeLeft] that no [DebugModeEntered]
    has followed: never before the first [DebugModeLeft], never between a
    [DebugModeEntered] and the next [DebugModeLeft]. *)
Theorem machine_runs_outside_debug_mode f sched :
  machine_guarded true (snd (exec (entry f) sched)) = true.
Proof. apply machine_guarded_from. reflexivity. Qed.

Lemma context_course_step c a :
  forall rest,
    context_course (self this)
      (phase_at (qt_version_gt_5_0_0 cfg) (pc (fst (step a c)))) rest = true ->
    context_course (self this)
      (phase_at (qt_version_gt_5_0_0 cfg) (pc c)) (snd (step a c) ++ rest)
    = true.
Proof.
  destruct c as [p wa [es rn st]].
  destruct a as [| r |]; cbn [EmuThread.step fst snd].
  - unfold EmuThread.sched_step, moveContext, self.
    destruct (qt_version_gt_5_0_0 cfg);
    destruct p, wa, es, rn, st; cbn; intros rest H;
      rewrite ?Nat.eqb_refl; cbn; exact H.
  - unfold request_step, notify.
    destruct p; cbn; intros rest H; exact H.
  - unfold notify. destruct p; cbn; intros rest H; exact H.
Qed.

Lemma context_course_from sched :
  forall c,
    context_course (self this)
      (phase_at (qt_version_gt_5_0_0 cfg) (pc c)) (snd (exec c sched)) = true.
Proof.
  induction sched as [| a sched IH]; intros c; [destruct (pc c); reflexivity |].
  rewrite exec_cons. cbn [snd]. apply context_course_step, IH.
Qed.

(** X3: in every interleaving [run] takes the context once, as its first
    call, and gives it up once: nothing precedes the [makeCurrent] on the
    emulation thread, no second one follows; every other call ([RunLoop],
    [SingleStep], [Shutdown], the notifications) lies between it and the
    one [doneCurrent]; after the release the only call left is one
    [moveToThread] to the presentation thread; [run] never swaps
    buffers. *)
Theorem machine_called_with_context f sched :
  context_course (emu_qthread this) NotTaken (snd (exec (entry f) sched))
  = true.
Proof. exact (context_course_from sched (entry f)). Qed.

(** *** After a stop request *)

Lemma stopping_step c a :
  stop_run (flags c) = true -> past_reset (pc c) = true ->
  pc c <> L60_blocked ->
  stop_run (flags (fst (step a c))) = true
  /\ past_reset (pc (fst (step a c))) = true
  /\ pc (fst (step a c)) <> L60_blocked
  /\ (exit_rank (pc (fst (step a c)))
      <= exit_rank (pc c) - (if is_Sched a then 1 else 0))%nat
  /\ (count is_machine_call (snd (step a c))
      + machine_calls_left (pc (fst (step a c)))
      <= machine_calls_left (pc c))%nat.
Proof.
  destruct c as [p wa [es rn st]]. cbn [pc flags stop_run]. intros -> Hp Hb.
  destruct a as [| r |]; cbn [EmuThread.step fst snd].
  - unfold EmuThread.sched_step, moveContext.
    destruct (qt_version_gt_5_0_0 cfg);
    destruct p, wa, es, rn; cbn in *; try discriminate Hp; try congruence;
      repeat split; try discriminate; lia.
  - unfold request_step, notify.
    destruct r as [b | |]; [destruct b | |];
      destruct p; cbn in *; try discriminate Hp; try congruence;
      repeat split; try discriminate; lia.
  - unfold notify.
    destruct p; cbn in *; try discriminate Hp; try congruence;
      repeat split; try discriminate; lia.
Qed.

Lemma stopping_exec sched :
  forall c,
    stop_run (flags c) = true -> past_reset (pc c) = true ->
    pc c <> L60_blocked ->
    (exit_rank (pc (fst (exec c sched)))
     <= exit_rank (pc c) - count is_Sched sched)%nat
    /\ (count is_machine_call (snd (exec c sched))
        <= machine_calls_left (pc c))%nat.
Proof.
  induction sched as [| a sched IH]; intros c Hs Hp Hb.
  - cbn. lia.
  - rewrite exec_cons. cbn [fst snd].
    destruct (stopping_step c a Hs Hp Hb) as (Hs' & Hp' & Hb' & Hrank & Hcalls).
    destruct (IH _ Hs' Hp' Hb') as [IHrank IHcalls].
    change (a :: sched) with ([a] ++ sched).
    rewrite (count_app is_Sched), (count_app is_machine_call).
    assert (count is_Sched [a] = if is_Sched a then 1 else 0)%nat
      by (unfold count; cbn; destruct (is_Sched a); reflexivity).
    lia.
Qed.

Lemma exit_rank_Finished p : exit_rank p = 0%nat -> p = Finished.
Proof. destruct p; cbn; intros H; try discriminate H; reflexivity. Qed.

(** X4: a stop requested at any point after line 32 ends [run] within
    eleven further steps of the thread, whatever else is requested or
    wakes it meanwhile, and the machine is called at most once more. *)
Theorem stop_request_ends_run c sched :
  past_reset (pc c) = true ->
  (11 <= count is_Sched sched)%nat ->
  pc (fst (exec c (Req RequestStop :: sched))) = Finished
  /\ (count is_machine_call (snd (exec c (Req RequestStop :: sched))) <= 1)%nat.
Proof.
  intros Hp Hn. rewrite exec_cons. cbn [EmuThread.step fst snd app].
  assert (Hs' : stop_run (flags (request_step RequestStop c)) = true)
    by (destruct c as [p wa f]; unfold request_step, notify; cbn;
        destruct p; reflexivity).
  assert (Hp' : past_reset (pc (request_step RequestStop c)) = true)
    by (destruct c as [p wa f]; unfold request_step, notify; cbn in *;
        destruct p; try discriminate Hp; reflexivity).
  assert (Hb' : pc (request_step RequestStop c) <> L60_blocked)
    by (destruct c as [p wa f]; unfold request_step, notify; cbn;
        destruct p; cbn; discriminate).
  destruct (stopping_exec sched _ Hs' Hp' Hb') as [Hrank Hcalls].
  split.
  - apply exit_rank_Finished.
    assert (exit_rank (pc (request_step RequestStop c)) <= 11)%nat
      by (destruct (pc (request_step RequestStop c)); cbn in *;
          try discriminate Hp'; lia).
    lia.
  - assert (machine_calls_left (pc (request_step RequestStop c)) <= 1)%nat
      by (destruct (pc (request_step RequestStop c)); cbn; lia).
    lia.
Qed.

(** *** While running *)

Lemma running_iterations c n :
  pc c = L38 -> was_active c = true ->
  running (flags c) = true -> stop_run (flags c) = false ->
  exec c (repeat Sched (6 * n)) = (c, repeat RunLoop n).
Proof.
  destruct c as [p wa [es rn st]].
  cbn [pc flags was_active running stop_run]. intros -> -> -> ->.
  induction n as [| n IH]; [reflexivity |].
  replace (6 * S n)%nat with (6 + 6 * n)%nat by lia.
  rewrite repeat_app.
  erewrite exec_app_eq; [| reflexivity | exact IH]. reflexivity.
Qed.

(** X5: while [running] stays set and no stop is requested, every six
    steps of the thread make one [RunLoop] call and nothing else: after
    the one [DebugModeLeft] that an inactive thread owes, no notification
    is made and the thread never sleeps. *)
Theorem running_loop_calls_RunLoop c n :
  pc c = L38 -> running (flags c) = true -> stop_run (flags c) = false ->
  exec c (repeat Sched (6 * S n))
  = (goto_active L38 true c,
     (if was_active c then [] else [DebugModeLeft]) ++ repeat RunLoop (S n)).
Proof.
  destruct c as [p wa [es rn st]].
  cbn [pc flags was_active running stop_run]. intros -> -> ->.
  replace (6 * S n)%nat with (6 + 6 * n)%nat by lia.
  rewrite repeat_app.
  destruct wa.
  all: eapply eq_trans;
    [ eapply exec_app_eq;
      [ reflexivity | apply running_iterations; reflexivity ]
    | reflexivity ].
Qed.

Lemma running_ignores_step c a :
  running (flags c) = true -> in_step_branch (pc c) = false ->
  is_pause_request a = false ->
  running (flags (fst (step a c))) = true
  /\ in_step_branch (pc (fst (step a c))) = false
  /\ count is_SingleStep (snd (step a c)) = 0%nat
  /\ exec_step (flags (fst (step a c)))
     = exec_step (flags c) || is_ExecStep a.
Proof.
  destruct c as [p wa [es rn st]]. cbn [pc flags running]. intros -> Hp Ha.
  destruct a as [| r |]; cbn [EmuThread.step fst snd].
  - unfold EmuThread.sched_step, moveContext.
    destruct (qt_version_gt_5_0_0 cfg);
    destruct p, wa, es, st; cbn in *; try discriminate Hp;
      repeat split.
  - unfold request_step, notify.
    destruct r as [b | |]; [destruct b | |]; try discriminate Ha;
      destruct p, es; cbn in *; try discriminate Hp; repeat split.
  - unfold notify.
    destruct p, es; cbn in *; try discriminate Hp; repeat split.
Qed.

(** X6: while [running] is set the run branch has priority: as long as
    no [SetRunning(false)] is made, no [SingleStep] is called, and a step
    request made meanwhile stays pending in [exec_step]. *)
Theorem step_request_waits_while_running sched :
  forall c,
    running (flags c) = true -> in_step_branch (pc c) = false ->
    Forall (fun a => is_pause_request a = false) sched ->
    count is_SingleStep (snd (exec c sched)) = 0%nat
    /\ exec_step (flags (fst (exec c sched)))
       = exec_step (flags c) || existsb is_ExecStep sched.
Proof.
  induction sched as [| a sched IH]; intros c Hr Hp Hs.
  - cbn. rewrite orb_false_r. split; reflexivity.
  - inversion Hs as [| a' s' Ha Hrest]; subst.
    rewrite exec_cons. cbn [fst snd].
    destruct (running_ignores_step c a Hr Hp Ha) as (Hr' & Hp' & Hc & He).
    destruct (IH _ Hr' Hp' Hrest) as [IHc IHe].
    split.
    + rewrite count_app, Hc, IHc. reflexivity.
    + rewrite IHe, He. cbn [existsb]. rewrite orb_assoc. reflexivity.
Qed.

(** *** Who writes the flags *)

Lemma flags_written_step c a :
  running (flags (fst (step a c)))
  = running (requests_flags (requests_of [a]) (flags c))
  /\ (past_reset (pc c) = true ->
      past_reset (pc (fst (step a c))) = true
      /\ stop_run (flags (fst (step a c)))
         = stop_run (requests_flags (requests_of [a]) (flags c))).
Proof.
  destruct c as [p wa [es rn st]]. cbn [pc flags].
  destruct a as [| r |]; cbn [EmuThread.step fst snd requests_of].
  - unfold EmuThread.sched_step, moveContext.
    destruct (qt_version_gt_5_0_0 cfg);
    destruct p, wa, es, rn, st; cbn; split; try reflexivity;
      intros H; try discriminate H; split; reflexivity.
  - unfold request_step, notify.
    destruct p; cbn; split; try reflexivity;
      intros H; try discriminate H; split; reflexivity.
  - unfold notify.
    destruct p; cbn; split; try reflexivity;
      intros H; try discriminate H; split; reflexivity.
Qed.

Lemma requests_of_cons a sched f :
  requests_flags (requests_of (a :: sched)) f
  = requests_flags (requests_of sched) (requests_flags (requests_of [a]) f).
Proof. destruct a; reflexivity. Qed.

Lemma requests_flags_fields rs :
  forall f g,
    (running f = running g ->
     running (requests_flags rs f) = running (requests_flags rs g))
    /\ (stop_run f = stop_run g ->
        stop_run (requests_flags rs f) = stop_run (requests_flags rs g)).
Proof.
  induction rs as [| r rs IH]; intros f g; [split; auto |].
  cbn. split; intros H; apply IH; destruct r; cbn; congruence.
Qed.

(** X7: the thread never writes [running], and after line 32 it never
    writes [stop_run]: in every interleaving the final [running] flag is
    what the requests alone make of the initial one, and from any point
    after line 32 so is [stop_run]; a stop request made after line 32 is
    never undone. *)
Theorem thread_leaves_running_and_stop_flags sched :
  forall c,
    running (flags (fst (exec c sched)))
    = running (requests_flags (requests_of sched) (flags c))
    /\ (past_reset (pc c) = true ->
        stop_run (flags (fst (exec c sched)))
        = stop_run (requests_flags (requests_of sched) (flags c))).
Proof.
  induction sched as [| a sched IH]; intros c; [split; reflexivity |].
  rewrite exec_cons. cbn [fst]. rewrite requests_of_cons.
  destruct (flags_written_step c a) as [Hr Hs].
  destruct (IH (fst (step a c))) as [IHr IHs].
  split.
  - rewrite IHr. apply requests_flags_fields, Hr.
  - intros Hp. destruct (Hs Hp) as [Hp' Hst].
    rewrite (IHs Hp'). apply requests_flags_fields, Hst.
Qed.

End RunExtras.

Lemma stop_request_ends_run_witness :
  pc (fst (EmuThread.exec Samples.qt5_debug Samples.window 1
             Samples2.after_RunLoop (Req RequestStop :: repeat Sched 11)))
  = Finished.
Proof.
  exact (proj1 (stop_request_ends_run Samples.qt5_debug Samples.window 1
                  Samples2.after_RunLoop (repeat Sched 11) eq_refl
                  (le_n 11))).
Defined.

Lemma running_loop_calls_RunLoop_witness :
  EmuThread.exec Samples.qt5_debug Samples.window 1 Samples2.running_at_head
    (repeat Sched 18)
  = (goto_active L38 true Samples2.running_at_head,
     [DebugModeLeft; RunLoop; RunLoop; RunLoop]).
Proof.
  exact (running_loop_calls_RunLoop Samples.qt5_debug Samples.window 1
           Samples2.running_at_head 2 eq_refl eq_refl eq_refl).
Defined.

Lemma step_request_waits_while_running_witness :
  count is_SingleStep
    (snd (EmuThread.exec Samples.qt5_debug Samples.window 1
            Samples2.running_at_head
            (Sched :: Req ExecStep :: repeat Sched 12))) = 0%nat
  /\ exec_step
       (flags (fst (EmuThread.exec Samples.qt5_debug Samples.window 1
                      Samples2.running_at_head
                      (Sched :: Req ExecStep :: repeat Sched 12)))) = true.
Proof.
  refine (step_request_waits_while_running Samples.qt5_debug Samples.window 1
            (Sched :: Req ExecStep :: repeat Sched 12)
            Samples2.running_at_head eq_refl eq_refl _).
  repeat constructor.
Defined.

Lemma thread_leaves_running_and_stop_flags_witness :
  stop_run
    (flags (fst (EmuThread.exec Samples.qt5_debug Samples.window 1
                   Samples2.running_at_head
                   [Sched; Req RequestStop; Sched; Req (SetRunning false);
                    Sched; Sched]))) = true.
Proof.
  exact (proj2 (thread_leaves_running_and_stop_flags Samples.qt5_debug
                  Samples.window 1
                  [Sched; Req RequestStop; Sched; Req (SetRunning false);
                   Sched; Sched]
                  Samples2.running_at_head) eq_refl).
Defined.

(** ** Input events: further properties *)

Import Shell.

Lemma gamepadAxisEvent_device w event :
  Forall (fun c => device_of c = keyboard_id w) (gamepadAxisEvent w event).
Proof.
  unfold gamepadAxisEvent.
  destruct (Z.eqb (axis event) SDL_CONTROLLER_AXIS_LEFTX),
           (Z.eqb (axis event) SDL_CONTROLLER_AXIS_LEFTY),
           (Z.ltb (value event) (-8000)), (Z.ltb 8000 (value event));
    repeat constructor.
Qed.

Lemma PollEvents_switch_device w event :
  Forall (fun c => device_of c = keyboard_id w) (PollEvents_switch w event).
Proof.
  unfold PollEvents_switch.
  destruct (_ || _); [apply gamepadButtonEvent_device |].
  destruct (Z.eqb _ _); [apply gamepadAxisEvent_device | constructor].
Qed.

Lemma gamepadButtonEvent_length w event :
  (length (gamepadButtonEvent w event) <= 1)%nat.
Proof.
  unfold gamepadButtonEvent.
  destruct (find_if _ _); [| cbn; lia].
  destruct (Z.eqb _ _); cbn; lia.
Qed.

Lemma gamepadAxisEvent_length w event :
  (length (gamepadAxisEvent w event) <= 2)%nat.
Proof.
  unfold gamepadAxisEvent, SDL_CONTROLLER_AXIS_LEFTX, SDL_CONTROLLER_AXIS_LEFTY.
  destruct (Z.eqb_spec (axis event) 0), (Z.eqb_spec (axis event) 1);
    cbn; lia.
Qed.

Lemma PollEvents_switch_length w event :
  (length (PollEvents_switch w event) <= 2)%nat.
Proof.
  unfold PollEvents_switch.
  destruct (_ || _).
  - pose proof (gamepadButtonEvent_length w (cbutton event)). lia.
  - destruct (Z.eqb _ _); [apply gamepadAxisEvent_length | cbn; lia].
Qed.

Lemma PollEvents_app w q1 q2 :
  PollEvents w (q1 ++ q2) = PollEvents w q1 ++ PollEvents w q2.
Proof.
  induction q1 as [| e q1 IH]; [reflexivity |].
  cbn. rewrite IH, app_assoc. reflexivity.
Qed.

(** X8: whatever [SDL_PollEvent] hands out, [PollEvents] forwards every
    input under the keyboard's device id, makes at most two calls per
    event, handles the events in order (polling a queue in two parts is
    polling it whole), and makes no call at all for events that are not
    controller button or axis events. *)
Theorem PollEvents_forwards_in_order w :
  (forall pending,
      Forall (fun c => device_of c = keyboard_id w) (PollEvents w pending)
      /\ (length (PollEvents w pending) <= 2 * length pending)%nat)
  /\ (forall q1 q2,
         PollEvents w (q1 ++ q2) = PollEvents w q1 ++ PollEvents w q2)
  /\ (forall pending,
         Forall (fun e => type e <> SDL_CONTROLLERBUTTONUP
                          /\ type e <> SDL_CONTROLLERBUTTONDOWN
                          /\ type e <> SDL_CONTROLLERAXISMOTION) pending ->
         PollEvents w pending = []).
Proof.
  split; [| split; [apply PollEvents_app |]].
  - induction pending as [| e pending [IHd IHl]]; [split; [constructor | cbn; lia] |].
    cbn [PollEvents]. split.
    + apply Forall_app. split; [apply PollEvents_switch_device | exact IHd].
    + rewrite length_app. pose proof (PollEvents_switch_length w e).
      cbn [length]. lia.
  - induction pending as [| e pending IH]; intros H; [reflexivity |].
    inversion H as [| e' p' (Hup & Hdown & Haxis) Hrest]; subst.
    cbn [PollEvents]. rewrite (IH Hrest), app_nil_r.
    unfold PollEvents_switch.
    destruct (Z.eqb_spec (type e) SDL_CONTROLLERBUTTONUP); [contradiction |].
    destruct (Z.eqb_spec (type e) SDL_CONTROLLERBUTTONDOWN); [contradiction |].
    destruct (Z.eqb_spec (type e) SDL_CONTROLLERAXISMOTION); [contradiction |].
    reflexivity.
Qed.

Lemma PollEvents_forwards_in_order_witness :
  PollEvents Samples.window [Samples2.other_event; Samples2.other_event] = [].
Proof.
  refine (proj2 (proj2 (PollEvents_forwards_in_order Samples.window))
            [Samples2.other_event; Samples2.other_event] _).
  repeat constructor; discriminate.
Defined.

Lemma GamepadSetMappings_entry w b it :
  find_if b (gamepad_mappings (GamepadSetMappings w)) = Some it ->
  fst it = b
  /\ In it [ (0, 65); (1, 83); (2, 90); (3, 88); (6, 77); (4, 78);
             (12, 71); (13, 70); (14, 72); (11, 84) ].
Proof.
  intros H. destruct (find_if_Some _ _ _ H) as [Hin Hb].
  split; [exact Hb | exact Hin].
Qed.

(** X9: with the table [GamepadSetMappings] builds, a controller button
    event makes one call if its button is one of the ten of the table and
    none otherwise (guide, sticks and shoulders forward nothing); the call
    is the one the keyboard handlers make for the button's key code; and
    two events are forwarded with the same key code exactly when they
    come from the same button. *)
Theorem gamepad_buttons_act_as_distinct_keys w :
  let w' := GamepadSetMappings w in
  (forall event,
      gamepadButtonEvent w' event = []
      <-> ~ In (button event) [0; 1; 2; 3; 4; 6; 11; 12; 13; 14])
  /\ (forall event c,
         In c (gamepadButtonEvent w' event) ->
         gamepadButtonEvent w' event
         = if Z.eqb (state event) SDL_PRESSED
           then keyPressEvent w' (key_code_of c)
           else keyReleaseEvent w' (key_code_of c))
  /\ (forall event1 event2 c1 c2,
         In c1 (gamepadButtonEvent w' event1) ->
         In c2 (gamepadButtonEvent w' event2) ->
         (key_code_of c1 = key_code_of c2 <-> button event1 = button event2)).
Proof.
  cbv zeta. split; [| split].
  - intros event. unfold gamepadButtonEvent.
    destruct (find_if (button event) _) as [it |] eqn:Hf.
    + destruct (GamepadSetMappings_entry _ _ _ Hf) as [Hb Hin].
      split.
      * destruct (Z.eqb _ _); discriminate.
      * intros Hn. exfalso. apply Hn. rewrite <- Hb.
        cbn in Hin. cbn.
        repeat (destruct Hin as [<- | Hin]; [cbn; tauto |]). destruct Hin.
    + split; [| reflexivity]. intros _ Hin.
      cbn in Hin.
      repeat (destruct Hin as [Hb | Hin];
              [ rewrite <- Hb in Hf; discriminate Hf |]).
      destruct Hin.
  - intros event c. unfold gamepadButtonEvent, keyPressEvent, keyReleaseEvent.
    destruct (find_if (button event) _) as [it |]; [| intros []].
    destruct (Z.eqb _ _); intros [<- | []]; reflexivity.
  - intros event1 event2 c1 c2. unfold gamepadButtonEvent.
    destruct (find_if (button event1) _) as [it1 |] eqn:H1; [| intros []].
    destruct (find_if (button event2) _) as [it2 |] eqn:H2;
      [| intros _ []].
    destruct (GamepadSetMappings_entry _ _ _ H1) as [Hb1 Hin1].
    destruct (GamepadSetMappings_entry _ _ _ H2) as [Hb2 Hin2].
    intros Hc1 Hc2.
    assert (Hk1 : key_code_of c1 = snd it1)
      by (destruct (Z.eqb (state event1) SDL_PRESSED);
          destruct Hc1 as [<- | []]; reflexivity).
    assert (Hk2 : key_code_of c2 = snd it2)
      by (destruct (Z.eqb (state event2) SDL_PRESSED);
          destruct Hc2 as [<- | []]; reflexivity).
    rewrite Hk1, Hk2, <- Hb1, <- Hb2. clear - Hin1 Hin2.
    cbn in Hin1, Hin2.
    repeat (destruct Hin1 as [<- | Hin1]); try destruct Hin1;
      repeat (destruct Hin2 as [<- | Hin2]); try destruct Hin2;
      cbn; split; intros H; try reflexivity; discriminate H.
Qed.

Lemma gamepad_buttons_act_as_distinct_keys_witness :
  gamepadButtonEvent (GamepadSetMappings Samples.window) Samples.press_A
  = keyPressEvent (GamepadSetMappings Samples.window) 65.
Proof.
  refine (proj1 (proj2 (gamepad_buttons_act_as_distinct_keys Samples.window))
            Samples.press_A (PressKey (65, 0)) _).
  left. reflexivity.
Defined.

(** X10: one axis-motion event never presses two keys: it makes two
    calls on the left stick's X or Y axis and none on any other axis
    (right stick, triggers), at most one of the two is a press, both are
    releases when the value is within the deadzone, and the keys are the
    arrow keys of that axis under the keyboard's device id. *)
Theorem axis_event_presses_at_most_one_key w event :
  let calls := gamepadAxisEvent w event in
  (count is_press calls <= 1)%nat
  /\ (-8000 <= value event <= 8000 -> count is_press calls = 0%nat)
  /\ (axis event = SDL_CONTROLLER_AXIS_LEFTX ->
      List.map key_code_of calls = [Key_Left; Key_Right])
  /\ (axis event = SDL_CONTROLLER_AXIS_LEFTY ->
      List.map key_code_of calls = [Key_Up; Key_Down])
  /\ (axis event <> SDL_CONTROLLER_AXIS_LEFTX ->
      axis event <> SDL_CONTROLLER_AXIS_LEFTY -> calls = [])
  /\ Forall (fun c => device_of c = keyboard_id w) calls.
Proof.
  cbv zeta. unfold gamepadAxisEvent, SDL_CONTROLLER_AXIS_LEFTX,
    SDL_CONTROLLER_AXIS_LEFTY.
  destruct (Z.eqb_spec (axis event) 0) as [H0 | H0],
           (Z.eqb_spec (axis event) 1) as [H1 | H1];
    try (exfalso; lia);
    destruct (Z.ltb_spec (value event) (-8000)),
             (Z.ltb_spec 8000 (value event));
    try (exfalso; lia);
    cbn; repeat split; intros; try reflexivity; try lia;
    try contradiction; repeat constructor.
Qed.

Lemma axis_event_presses_at_most_one_key_witness :
  count is_press (gamepadAxisEvent Samples.window (Samples.left_x 500)) = 0%nat
  /\ List.map key_code_of (gamepadAxisEvent Samples.window (Samples.left_y 9000))
     = [Key_Up; Key_Down]
  /\ gamepadAxisEvent Samples.window {| axis := 2; value := 9000 |} = [].
Proof.
  split; [| split].
  - refine (proj1 (proj2 (axis_event_presses_at_most_one_key Samples.window
                            (Samples.left_x 500))) _).
    cbn. lia.
  - exact (proj1 (proj2 (proj2 (proj2 (axis_event_presses_at_most_one_key
             Samples.window (Samples.left_y 9000))))) eq_refl).
  - refine (proj1 (proj2 (proj2 (proj2 (proj2
             (axis_event_presses_at_most_one_key Samples.window
                {| axis := 2; value := 9000 |}))))) _ _);
      cbn; discriminate.
Defined.

(** ** Reloading the key map: further properties *)

Lemma option_eq_by_Some {A} (P : A -> Prop) (o1 o2 : option A) :
  (forall t, o1 = Some t <-> P t) -> (forall t, o2 = Some t <-> P t) ->
  o1 = o2.
Proof.
  intros H1 H2. destruct o1 as [t1 |].
  - symmetry. apply H2, H1. reflexivity.
  - destruct o2 as [t2 |]; [| reflexivity].
    apply (proj2 (H1 t2)), H2. reflexivity.
Qed.

Lemma reload_rounds_agree {KeyTarget : Type} (All : nat -> nat)
    (input_mappings : nat -> Z) (mapping_targets : nat -> KeyTarget)
    (w : GRenderWindow.t) (n : nat) (m1 m2 : gmap HostDeviceKey KeyTarget) :
  (forall k d, d <> keyboard_id w -> m1 !! (k, d) = m2 !! (k, d)) ->
  reload_rounds All input_mappings mapping_targets w n m1
  = reload_rounds All input_mappings mapping_targets w n m2.
Proof.
  intros Hother. apply map_eq. intros [k d].
  destruct (decide (d = keyboard_id w)) as [-> | Hd].
  - eapply option_eq_by_Some; intros t; apply after_this_device.
  - rewrite !after_other_device by exact Hd. apply Hother, Hd.
Qed.

(** X11: what a reload leaves in the table does not depend on what the
    table held for the keyboard's device before: two tables that agree
    on the other devices are equal after [ReloadSetKeymaps]. *)
Theorem reload_forgets_previous_bindings {KeyTarget : Type}
    (NUM_INPUTS : nat) (All : nat -> nat) (input_mappings : nat -> Z)
    (mapping_targets : nat -> KeyTarget) (w : GRenderWindow.t)
    (m1 m2 : gmap HostDeviceKey KeyTarget) :
  (forall k d, d <> keyboard_id w -> m1 !! (k, d) = m2 !! (k, d)) ->
  KeyMap.apply_edits
    (ReloadSetKeymaps NUM_INPUTS All input_mappings mapping_targets w) m1
  = KeyMap.apply_edits
      (ReloadSetKeymaps NUM_INPUTS All input_mappings mapping_targets w) m2.
Proof. intros H. rewrite !apply_ReloadSetKeymaps. apply reload_rounds_agree, H. Qed.

Lemma reload_forgets_previous_bindings_witness :
  KeyMap.apply_edits
    (ReloadSetKeymaps 3 Samples.cfg_All Samples.cfg_input_mappings
                      Samples.cfg_mapping_targets Samples.window)
    (<[(83, 0) := 99%nat]> (<[(70, 1) := 5%nat]> ∅))
  = KeyMap.apply_edits
      (ReloadSetKeymaps 3 Samples.cfg_All Samples.cfg_input_mappings
                        Samples.cfg_mapping_targets Samples.window)
      (<[(70, 1) := 5%nat]> ∅).
Proof.
  apply reload_forgets_previous_bindings.
  intros k d Hd. apply lookup_insert_ne. cbn in Hd. congruence.
Defined.

(** X12: reloading is idempotent: with an unchanged configuration, a
    second [ReloadSetKeymaps] leaves the table as the first one left it. *)
Theorem reload_twice_is_reload_once {KeyTarget : Type}
    (NUM_INPUTS : nat) (All : nat -> nat) (input_mappings : nat -> Z)
    (mapping_targets : nat -> KeyTarget) (w : GRenderWindow.t)
    (m : gmap HostDeviceKey KeyTarget) :
  KeyMap.apply_edits
    (ReloadSetKeymaps NUM_INPUTS All input_mappings mapping_targets w
     ++ ReloadSetKeymaps NUM_INPUTS All input_mappings mapping_targets w) m
  = KeyMap.apply_edits
      (ReloadSetKeymaps NUM_INPUTS All input_mappings mapping_targets w) m.
Proof.
  unfold KeyMap.apply_edits at 1. rewrite fold_left_app.
  fold (KeyMap.apply_edits
          (ReloadSetKeymaps NUM_INPUTS All input_mappings mapping_targets w) m).
  fold (KeyMap.apply_edits
          (ReloadSetKeymaps NUM_INPUTS All input_mappings mapping_targets w)
          (KeyMap.apply_edits
             (ReloadSetKeymaps NUM_INPUTS All input_mappings mapping_targets w)
             m)).
  rewrite !apply_ReloadSetKeymaps. apply reload_rounds_agree.
  intros k d Hd. apply after_other_device, Hd.
Qed.

(** ** Session members: properties *)

(** X13: [OnEmulationStarting] makes the presentation thread's next
    [moveContext] hand the context to the new emulation thread, stops
    the child widget from painting and leaves the input mappings alone;
    [OnEmulationStopping] afterward makes [moveContext] keep the context
    on the presentation thread and painting resume, and the state it
    leaves is the one it would have left without the start. *)
Theorem session_start_then_stop cfg e (s s1 : Shell.t) :
  OnEmulationStarting e s = Some s1 ->
  moveContext cfg (window s1) qApp_thread
  = doneCurrent qApp_thread
    :: (if qt_version_gt_5_0_0 cfg
        then [moveToThread qApp_thread (emu_qthread e)] else [])
  /\ (exists c1, child s1 = Some c1 /\ paintEvent c1 = Some false)
  /\ motion_emu s1 = true
  /\ (forall pending, PollEvents (window s1) pending
                      = PollEvents (window s) pending)
  /\ exists s2,
      OnEmulationStopping s1 = Some s2
      /\ OnEmulationStopping s = Some s2
      /\ moveContext cfg (window s2) qApp_thread
         = doneCurrent qApp_thread
           :: (if qt_version_gt_5_0_0 cfg
               then [moveToThread qApp_thread qApp_thread] else [])
      /\ (exists c2, child s2 = Some c2 /\ paintEvent c2 = Some true)
      /\ motion_emu s2 = false.
Proof.
  destruct s as [[kid et gm] me [c |]]; unfold OnEmulationStarting; cbn;
    [| discriminate].
  intros [= <-]. cbn.
  split; [reflexivity |].
  split; [eexists; split; reflexivity |].
  split; [reflexivity |].
  split.
  - induction pending as [| ev pending IH]; [reflexivity |].
    cbn [PollEvents]. rewrite IH. reflexivity.
  - eexists. unfold OnEmulationStopping. cbn.
    split; [reflexivity |]. split; [reflexivity |].
    split; [reflexivity |].
    split; [eexists; split; reflexivity | reflexivity].
Qed.

Lemma session_start_then_stop_witness :
  moveContext Samples.qt5_debug
    (set_emu_thread (Some 7%nat) Samples.window) qApp_thread
  = [doneCurrent qApp_thread; moveToThread qApp_thread (emu_qthread 7)].
Proof.
  exact (proj1 (session_start_then_stop Samples.qt5_debug 7 Samples2.started
                  _ eq_refl)).
Defined.

(** X14: the mouse handlers use [motion_emu] without testing it. A mouse
    move always reports the touch position first and then returns only
    if [motion_emu] holds an object; right-button press and release
    return only then too; left-button press and release never touch it;
    other buttons do nothing. So every mouse event returns after
    [OnEmulationStarting], and no mouse move does after [closeEvent] or
    [OnEmulationStopping]. *)
Theorem mouse_events_need_motion_emu (to_pixels : Z -> Z) (s : Shell.t) event :
  returned (mouseMoveEvent to_pixels s event) = motion_emu s
  /\ (exists x y rest,
         mouseMoveEvent to_pixels s event = Returned (TouchMoved x y :: rest)
         \/ mouseMoveEvent to_pixels s event = NullDereference [TouchMoved x y])
  /\ (mouse_button event = Qt_LeftButton ->
      mousePressEvent to_pixels s event
      = Returned [TouchPressed (to_pixels (pos_x event))
                               (to_pixels (pos_y event))]
      /\ mouseReleaseEvent s event = Returned [TouchReleased])
  /\ (mouse_button event = Qt_RightButton ->
      returned (mousePressEvent to_pixels s event) = motion_emu s
      /\ returned (mouseReleaseEvent s event) = motion_emu s)
  /\ (mouse_button event <> Qt_LeftButton ->
      mouse_button event <> Qt_RightButton ->
      mousePressEvent to_pixels s event = Returned []
      /\ mouseReleaseEvent s event = Returned [])
  /\ returned (mouseMoveEvent to_pixels (closeEvent s) event) = false
  /\ (forall e s1,
         OnEmulationStarting e s = Some s1 ->
         returned (mouseMoveEvent to_pixels s1 event) = true
         /\ returned (mousePressEvent to_pixels s1 event) = true
         /\ returned (mouseReleaseEvent s1 event) = true)
  /\ (forall s2,
         OnEmulationStopping s = Some s2 ->
         returned (mouseMoveEvent to_pixels s2 event) = false).
Proof.
  unfold mouseMoveEvent, mousePressEvent, mouseReleaseEvent.
  split; [destruct (motion_emu s); reflexivity |].
  split.
  { do 3 eexists. destruct (motion_emu s); [left | right]; reflexivity. }
  split.
  { intros ->. cbn. split; reflexivity. }
  split.
  { intros ->. cbn. destruct (motion_emu s); split; reflexivity. }
  split.
  { intros Hl Hr.
    destruct (Z.eqb_spec (mouse_button event) Qt_LeftButton); [contradiction |].
    destruct (Z.eqb_spec (mouse_button event) Qt_RightButton); [contradiction |].
    split; reflexivity. }
  split; [reflexivity |].
  split.
  - intros e s1. unfold OnEmulationStarting.
    destruct (child s); [| discriminate]. intros [= <-]. cbn.
    destruct (Z.eqb (mouse_button event) Qt_LeftButton),
             (Z.eqb (mouse_button event) Qt_RightButton); repeat split.
  - intros s2. unfold OnEmulationStopping.
    destruct (child s); [| discriminate]. intros [= <-]. reflexivity.
Qed.

Lemma mouse_events_need_motion_emu_witness :
  mousePressEvent (fun p => 2 * p) Samples2.started Samples2.left_press
  = Returned [TouchPressed 20 40]
  /\ returned (mousePressEvent (fun p => 2 * p) Samples2.started
                 Samples2.right_press) = false.
Proof.
  split.
  - exact (proj1 (proj1 (proj2 (proj2 (mouse_events_need_motion_emu
             (fun p => 2 * p) Samples2.started Samples2.left_press)))
             eq_refl)).
  - exact (proj1 (proj1 (proj2 (proj2 (proj2 (mouse_events_need_motion_emu
             (fun p => 2 * p) Samples2.started Samples2.right_press))))
             eq_refl)).
Defined.

(** ** Geometry backup: properties *)

(** X15: [restoreGeometry(g)] refreshes the backup, so a following
    [saveGeometry()] returns the geometry the widget has right after the
    restore, for a top-level window and an embedded one alike;
    [RestoreGeometry()] never changes the backup, so an embedded window
    keeps answering [saveGeometry()] with the same bytes; and if Qt
    restores a widget's own saved geometry to the same widget state,
    [RestoreGeometry()] right after [restoreGeometry(g)] changes
    nothing. *)
Theorem geometry_backup_follows_restore {Widget Bytes : Type}
    (QWidget_saveGeometry : Widget -> Bytes)
    (QWidget_restoreGeometry : Bytes -> Widget -> Widget) :
  (forall g (s : Geometry.t Widget Bytes),
      Geometry.saveGeometry QWidget_saveGeometry
        (Geometry.restoreGeometry QWidget_saveGeometry
           QWidget_restoreGeometry g s)
      = QWidget_saveGeometry (QWidget_restoreGeometry g (Geometry.widget s)))
  /\ (forall s : Geometry.t Widget Bytes,
         Geometry.geometry (Geometry.RestoreGeometry QWidget_restoreGeometry s)
         = Geometry.geometry s
         /\ (Geometry.has_parent s = true ->
             Geometry.saveGeometry QWidget_saveGeometry
               (Geometry.RestoreGeometry QWidget_restoreGeometry s)
             = Geometry.saveGeometry QWidget_saveGeometry s))
  /\ ((forall w, QWidget_restoreGeometry (QWidget_saveGeometry w) w = w) ->
      forall g (s : Geometry.t Widget Bytes),
        Geometry.RestoreGeometry QWidget_restoreGeometry
          (Geometry.restoreGeometry QWidget_saveGeometry
             QWidget_restoreGeometry g s)
        = Geometry.restoreGeometry QWidget_saveGeometry
            QWidget_restoreGeometry g s).
Proof.
  split; [| split].
  - intros g [w b hp]. unfold Geometry.saveGeometry, Geometry.restoreGeometry,
      Geometry.BackupGeometry. cbn. destruct hp; reflexivity.
  - intros [w b hp]. split; [reflexivity |]. cbn. intros ->. reflexivity.
  - intros Hqt g [w b hp]. unfold Geometry.RestoreGeometry,
      Geometry.restoreGeometry, Geometry.BackupGeometry. cbn.
    rewrite Hqt. reflexivity.
Qed.

Lemma geometry_backup_follows_restore_witness :
  Geometry.RestoreGeometry (fun (g w : Z) => g)
    (Geometry.restoreGeometry (fun w : Z => w) (fun (g w : Z) => g) 5
       {| Geometry.widget := 1; Geometry.geometry := 2;
          Geometry.has_parent := true |})
  = {| Geometry.widget := 5; Geometry.geometry := 5;
       Geometry.has_parent := true |}.
Proof.
  exact (proj2 (proj2 (geometry_backup_follows_restore
                         (fun w : Z => w) (fun (g w : Z) => g)))
           (fun w => eq_refl) 5
           {| Geometry.widget := 1; Geometry.geometry := 2;
              Geometry.has_parent := true |}).
Defined.

(** ** The controllers of [GamepadSetMappings]: properties *)

Lemma int_wrap_in_range z : INT_MIN <= z <= INT_MAX -> int_wrap z = z.
Proof.
  unfold INT_MIN, INT_MAX, int_wrap. intros H.
  rewrite Z.mod_small by lia. lia.
Qed.

Lemma open_controllers_spec {Pad : Type} (SDL_GameControllerOpen : Z -> Pad)
    (MaxJoysticks : Z) (fuel : nat) :
  MaxJoysticks <= INT_MAX ->
  forall JoystickIndex gamepad_controllers,
    0 <= JoystickIndex ->
    (Z.to_nat (MaxJoysticks - JoystickIndex) <= fuel)%nat ->
    open_controllers SDL_GameControllerOpen fuel JoystickIndex MaxJoysticks
      gamepad_controllers
    = gamepad_controllers
      ++ List.map (fun i => SDL_GameControllerOpen (JoystickIndex + Z.of_nat i))
           (seq 0 (Z.to_nat (MaxJoysticks - JoystickIndex))).
Proof.
  intros Hmax. induction fuel as [| fuel IH]; intros J acc HJ Hfuel.
  - replace (Z.to_nat (MaxJoysticks - J)) with 0%nat by lia.
    cbn. rewrite app_nil_r. reflexivity.
  - cbn [open_controllers]. destruct (Z.ltb_spec J MaxJoysticks) as [Hlt | Hge].
    + rewrite int_wrap_in_range by (unfold INT_MIN, INT_MAX in *; lia).
      rewrite IH by lia.
      replace (Z.to_nat (MaxJoysticks - J))
        with (S (Z.to_nat (MaxJoysticks - (J + 1)))) by lia.
      cbn [seq List.map]. rewrite <- app_assoc. cbn [app].
      rewrite Z.add_0_r. do 2 f_equal.
      rewrite <- seq_shift, List.map_map.
      apply List.map_ext. intros i. f_equal. lia.
    + replace (Z.to_nat (MaxJoysticks - J)) with 0%nat by lia.
      cbn. rewrite app_nil_r. reflexivity.
Qed.

Lemma open_controllers_none {Pad : Type} (SDL_GameControllerOpen : Z -> Pad)
    (fuel : nat) (J MaxJoysticks : Z) (acc : list Pad) :
  MaxJoysticks <= J ->
  open_controllers SDL_GameControllerOpen fuel J MaxJoysticks acc = acc.
Proof.
  intros H. destruct fuel as [| fuel]; [reflexivity |].
  cbn [open_controllers].
  destruct (Z.ltb_spec J MaxJoysticks); [lia | reflexivity].
Qed.

(** X16: [SDL_NumJoysticks()] returning an [int] [n] below [INT_MAX],
    [GamepadSetMappings] opens the joystick indices 0 up to and including
    [n], one past the last joystick, and stores every result, in order:
    with [n >= 0] joysticks the vector has [n + 1] entries, with a negative
    (error) count it is empty; the loop ends, and any larger bound on its
    rounds gives the same vector. At [n = INT_MAX] the sum [n + 1] leaves
    the range of [int]; wrapped around, the loop opens nothing. *)
Theorem GamepadSetMappings_opens_one_past_last {Pad : Type}
    (SDL_GameControllerOpen : Z -> Pad) (num_joysticks : Z) (fuel : nat) :
  INT_MIN <= num_joysticks <= INT_MAX ->
  (num_joysticks < INT_MAX ->
   (Z.to_nat (num_joysticks + 1) <= fuel)%nat ->
   GamepadSetMappings_controllers SDL_GameControllerOpen fuel num_joysticks
   = List.map (fun i => SDL_GameControllerOpen (Z.of_nat i))
       (seq 0 (Z.to_nat (num_joysticks + 1)))
   /\ length (GamepadSetMappings_controllers SDL_GameControllerOpen fuel
                num_joysticks)
      = Z.to_nat (num_joysticks + 1)
   /\ (0 <= num_joysticks ->
       List.last (GamepadSetMappings_controllers SDL_GameControllerOpen fuel
                    num_joysticks)
                 (SDL_GameControllerOpen 0)
       = SDL_GameControllerOpen num_joysticks)
   /\ (num_joysticks < 0 ->
       GamepadSetMappings_controllers SDL_GameControllerOpen fuel num_joysticks
       = []))
  /\ (num_joysticks = INT_MAX ->
      GamepadSetMappings_controllers SDL_GameControllerOpen fuel num_joysticks
      = []).
Proof.
  intros Hrange. split.
  - intros Hlt Hfuel. unfold GamepadSetMappings_controllers.
    rewrite int_wrap_in_range by (unfold INT_MIN, INT_MAX in *; lia).
    rewrite open_controllers_spec
      by (rewrite ?Z.sub_0_r; unfold INT_MAX in *; lia || exact Hfuel).
    rewrite Z.sub_0_r. cbn [app].
    split; [reflexivity |].
    split; [rewrite length_map, length_seq; reflexivity |].
    split.
    + intros Hn.
      replace (Z.to_nat (num_joysticks + 1))
        with (S (Z.to_nat num_joysticks)) by lia.
      rewrite seq_S, List.map_app. cbn [List.map]. rewrite last_last.
      f_equal. lia.
    + intros Hn. replace (Z.to_nat (num_joysticks + 1)) with 0%nat by lia.
      reflexivity.
  - intros ->. unfold GamepadSetMappings_controllers.
    apply open_controllers_none. vm_compute. discriminate.
Qed.

Lemma GamepadSetMappings_opens_one_past_last_witness :
  GamepadSetMappings_controllers (fun i => i) 10 2 = [0; 1; 2]
  /\ GamepadSetMappings_controllers (fun i => i) 10 (-1) = []
  /\ GamepadSetMappings_controllers (fun i => i) 10 INT_MAX = [].
Proof.
  split; [| split].
  - refine (proj1 (proj1 (GamepadSetMappings_opens_one_past_last
              (fun i => i) 2 10 _) _ _));
      unfold INT_MIN, INT_MAX; cbn; lia.
  - refine (proj2 (proj2 (proj2 (proj1 (GamepadSetMappings_opens_one_past_last
              (fun i => i) (-1) 10 _) _ _))) _);
      unfold INT_MIN, INT_MAX; cbn; lia.
  - refine (proj2 (GamepadSetMappings_opens_one_past_last
              (fun i => i) INT_MAX 10 _) eq_refl).
    unfold INT_MIN, INT_MAX. lia.
Defined.

(** ** The scheduler loop: waking and pausing *)

(** X17: a [SetRunning(true)] that reaches the thread in the wait gets
    the machine running within five steps of the thread, after the
    [DebugModeLeft] an inactive thread owes; a [SetRunning(false)] that
    reaches it there costs one more look at the predicate and the thread
    sleeps again, no call made. *)
Theorem SetRunning_reaches_waiting_thread cfg render_window this c :
  in_wait (pc c) = true -> wait_pred (flags c) = false ->
  EmuThread.exec cfg render_window this c
    (Req (SetRunning true) :: repeat Sched 5)
  = (goto_flags L45 (set_running true (flags c)) c,
     (if was_active c then [] else [DebugModeLeft]) ++ [RunLoop])
  /\ EmuThread.exec cfg render_window this c
       (Req (SetRunning false) :: repeat Sched 5)
     = (goto L60_blocked c, [cv_block]).
Proof.
  destruct c as [p wa [es rn st]]. cbn [pc flags was_active]. intros Hp Hw.
  unfold wait_pred in Hw. cbn in Hw.
  destruct rn, es, st; try discriminate Hw.
  destruct p; try discriminate Hp; destruct wa; split; reflexivity.
Qed.

Lemma SetRunning_reaches_waiting_thread_witness :
  EmuThread.exec Samples.qt5_debug Samples.window 1 Samples.asleep
    (Req (SetRunning true) :: repeat Sched 5)
  = (goto_flags L45 (set_running true constructed) Samples.asleep,
     [DebugModeLeft; RunLoop]).
Proof.
  exact (proj1 (SetRunning_reaches_waiting_thread Samples.qt5_debug
                  Samples.window 1 Samples.asleep eq_refl eq_refl)).
Defined.

(** X18: when the thread comes back from [RunLoop] and finds [running]
    cleared and no step pending, it announces the pause with one
    [DebugModeEntered] and goes to sleep, unless a stop was requested:
    then it makes no notification and goes straight to [Shutdown] and the
    release of the context. *)
Theorem pause_during_RunLoop_is_announced cfg render_window this c :
  pc c = L45 -> running (flags c) = false -> exec_step (flags c) = false ->
  (stop_run (flags c) = false ->
   EmuThread.exec cfg render_window this c (repeat Sched 7)
   = (goto_active L60_blocked false c, [DebugModeEntered; cv_block]))
  /\ (stop_run (flags c) = true ->
      EmuThread.exec cfg render_window this c (repeat Sched 6)
      = (goto_active Finished false c,
         Shutdown
         :: List.map GL (moveContext cfg render_window (emu_qthread this)))).
Proof.
  destruct c as [p wa [es rn st]].
  cbn [pc flags running exec_step stop_run]. intros -> -> ->.
  split; intros ->; cbn; rewrite ?app_nil_r; reflexivity.
Qed.

Lemma pause_during_RunLoop_is_announced_witness :
  EmuThread.exec Samples.qt5_debug Samples.window 1
    (goto_flags L45 constructed Samples2.after_RunLoop) (repeat Sched 7)
  = (goto_active L60_blocked false
       (goto_flags L45 constructed Samples2.after_RunLoop),
     [DebugModeEntered; cv_block]).
Proof.
  exact (proj1 (pause_during_RunLoop_is_announced Samples.qt5_debug
                  Samples.window 1
                  (goto_flags L45 constructed Samples2.after_RunLoop)
                  eq_refl eq_refl eq_refl) eq_refl).
Defined.
